(** * clio: chronological OCR batch (image_to_text.py)

    A shallow embedding of [get_image_creation_time], [get_image_files],
    [process_images] and the [__main__] block of [image_to_text.py], and the
    properties of the timestamp resolution, the ordering and the append-only
    output that follow from the code.

    The image library (PIL), the OCR engine (pytesseract) and the filesystem
    are collaborators of the program: what they answer for a directory entry
    is recorded in the entry itself ([dir_entry]), and the program is a
    function of these answers.  The answers are those of one quiescent
    filesystem: asking twice gives the same answer. *)

From Stdlib Require Import List String Ascii ZArith Bool Lia Arith.
From Stdlib Require Import Permutation Sorted.
Import ListNotations.

Local Open Scope string_scope.
Local Open Scope Z_scope.

(** ** Results of fallible calls *)

(** A Python call either returns a value or raises; [Raise] carries [str(e)]. *)
Inductive result (A : Type) : Type :=
| Ok (a : A)
| Raise (msg : string).
Arguments Ok {A} a.
Arguments Raise {A} msg.

(** ** datetime *)

(** A naive [datetime.datetime]: its seven fields. *)
Record datetime : Type := mk_datetime {
  year : Z;
  month : Z;
  day : Z;
  hour : Z;
  minute : Z;
  second : Z;
  microsecond : Z
}.

Definition dt_fields (d : datetime) : list Z :=
  [year d; month d; day d; hour d; minute d; second d; microsecond d].

(** Lexicographic [<] on field lists: naive datetimes compare field by field,
    most significant first. *)
Fixpoint lex_ltb (a b : list Z) : bool :=
  match a, b with
  | x :: a', y :: b' => (x <? y) || ((x =? y) && lex_ltb a' b')
  | [], _ :: _ => true
  | _, _ => false
  end.

(** [d1 < d2] of two datetimes. *)
Definition dt_ltb (d1 d2 : datetime) : bool := lex_ltb (dt_fields d1) (dt_fields d2).

(** [d1 == d2] of two datetimes. *)
Definition dt_eqb (d1 d2 : datetime) : bool :=
  (year d1 =? year d2) && (month d1 =? month d2) && (day d1 =? day d2) &&
  (hour d1 =? hour d2) && (minute d1 =? minute d2) && (second d1 =? second d2) &&
  (microsecond d1 =? microsecond d2).

(** [d1 <= d2] of two datetimes. *)
Definition dt_leb (d1 d2 : datetime) : bool := dt_ltb d1 d2 || dt_eqb d1 d2.

(** Which of two keys comes first in an iteration order, when either does. *)
Fixpoint comes_first (a b : Z) (keys : list Z) : bool :=
  match keys with
  | k :: keys' =>
      if k =? a then true else if k =? b then false else comes_first a b keys'
  | [] => false
  end.

(** ** Characters and decimal numbers *)

Definition newline : string := String (ascii_of_nat 10) EmptyString.

Definition is_digit (c : ascii) : bool :=
  let n := nat_of_ascii c in (48 <=? n)%nat && (n <=? 57)%nat.

Definition digit_value (c : ascii) : Z := Z.of_nat (nat_of_ascii c - 48).

(** [\s] on the ASCII range. *)
Definition is_space (c : ascii) : bool :=
  let n := nat_of_ascii c in
  ((9 <=? n)%nat && (n <=? 13)%nat) || ((28 <=? n)%nat && (n <=? 32)%nat).

Definition number_of (ds : list ascii) : Z :=
  fold_left (fun acc c => 10 * acc + digit_value c) ds 0.

(** The longest prefix of digits, and the rest. *)
Fixpoint span_digits (cs : list ascii) : list ascii * list ascii :=
  match cs with
  | c :: cs' =>
      if is_digit c then let (ds, rest) := span_digits cs' in (c :: ds, rest)
      else ([], cs)
  | [] => ([], [])
  end.

Fixpoint drop_spaces (cs : list ascii) : list ascii :=
  match cs with
  | c :: cs' => if is_space c then drop_spaces cs' else cs
  | [] => []
  end.

Definition digit_char (n : Z) : ascii := ascii_of_nat (48 + Z.to_nat (n mod 10)).

Definition two_digits (n : Z) : string :=
  String (digit_char (n / 10)) (String (digit_char n) EmptyString).

Definition four_digits (n : Z) : string :=
  String (digit_char (n / 1000)) (String (digit_char (n / 100)) (two_digits n)).

(** ** datetime.strptime(_, '%Y:%m:%d %H:%M:%S') and strftime

    A model of CPython's [strptime] for the one format the program uses, on
    ASCII input.  Each directive matches a run of digits that is closed by
    the separator that follows it in the format:
    %Y four digits; %m 1..12 in one or two digits (no 0, no 00);
    %d 1..31 in one or two digits, or a blank and one digit;
    %H 0..23, %M 0..59, %S 0..61 in one or two digits.  The blank of the
    format matches one or more white-space characters, and nothing may
    follow the seconds.  The fields must then make a date:
    year at least 1, day within the month, second at most 59.
    [None] stands for ValueError.  Beyond ASCII Python also takes other
    white space and other digits, which this model refuses: it stands for
    [strptime] on ASCII strings only, and the theorems are stated for any
    [strptime]. *)

Definition is_leap (y : Z) : bool :=
  (y mod 4 =? 0) && (negb (y mod 100 =? 0) || (y mod 400 =? 0)).

Definition days_in_month (y m : Z) : Z :=
  if m =? 2 then (if is_leap y then 29 else 28)
  else if (m =? 4) || (m =? 6) || (m =? 9) || (m =? 11) then 30
  else 31.

(** A run of one or two digits whose value lies in [lo, hi]; one digit is
    accepted when its value is at least [lo1]. *)
Definition field12 (lo1 lo hi : Z) (cs : list ascii) : option (Z * list ascii) :=
  let (ds, rest) := span_digits cs in
  let v := number_of ds in
  match List.length ds with
  | 1%nat => if lo1 <=? v then Some (v, rest) else None
  | 2%nat => if (lo <=? v) && (v <=? hi) then Some (v, rest) else None
  | _ => None
  end.

Definition field_year (cs : list ascii) : option (Z * list ascii) :=
  let (ds, rest) := span_digits cs in
  if (List.length ds =? 4)%nat then Some (number_of ds, rest) else None.

Definition field_day (cs : list ascii) : option (Z * list ascii) :=
  match cs with
  | c :: cs' =>
      if Ascii.eqb c " "%char then
        let (ds, rest) := span_digits cs' in
        if (List.length ds =? 1)%nat && (1 <=? number_of ds) then Some (number_of ds, rest)
        else None
      else field12 1 1 31 cs
  | [] => None
  end.

Definition expect (c : ascii) (cs : list ascii) : option (list ascii) :=
  match cs with
  | c' :: cs' => if Ascii.eqb c c' then Some cs' else None
  | [] => None
  end.

Definition expect_spaces (cs : list ascii) : option (list ascii) :=
  match cs with
  | c :: cs' => if is_space c then Some (drop_spaces cs') else None
  | [] => None
  end.

Definition bind_opt {A B : Type} (o : option A) (k : A -> option B) : option B :=
  match o with
  | Some a => k a
  | None => None
  end.

Definition strptime_exif (date_str : string) : option datetime :=
  bind_opt (field_year (list_ascii_of_string date_str)) (fun '(yr, r) =>
  bind_opt (expect ":"%char r) (fun r =>
  bind_opt (field12 1 1 12 r) (fun '(mo, r) =>
  bind_opt (expect ":"%char r) (fun r =>
  bind_opt (field_day r) (fun '(dy, r) =>
  bind_opt (expect_spaces r) (fun r =>
  bind_opt (field12 0 0 23 r) (fun '(hr, r) =>
  bind_opt (expect ":"%char r) (fun r =>
  bind_opt (field12 0 0 59 r) (fun '(mi, r) =>
  bind_opt (expect ":"%char r) (fun r =>
  bind_opt (field12 0 0 61 r) (fun '(sc, r) =>
  match r with
  | [] =>
      if (1 <=? yr) && (dy <=? days_in_month yr mo) && (sc <=? 59)
      then Some (mk_datetime yr mo dy hr mi sc 0)
      else None
  | _ :: _ => None
  end))))))))))).

(** [strftime('%Y-%m-%d %H:%M:%S')], with the year on four digits, as every
    platform writes the years from 1000 on; [strftime_of] of a platform is
    what that platform writes. *)
Definition strftime (t : datetime) : string :=
  four_digits (year t) ++ "-" ++ two_digits (month t) ++ "-" ++ two_digits (day t)
  ++ " " ++ two_digits (hour t) ++ ":" ++ two_digits (minute t) ++ ":"
  ++ two_digits (second t).

(** ** Path.suffix, str.lower and the allow-list *)

(** [str.rfind]: the index of the last occurrence, [None] for -1. *)
Fixpoint rfind (c : ascii) (cs : list ascii) : option nat :=
  match cs with
  | x :: cs' =>
      match rfind c cs' with
      | Some i => Some (S i)
      | None => if Ascii.eqb x c then Some 0%nat else None
      end
  | [] => None
  end.

(** [PurePath.suffix] of a final path component: from the last dot on, when
    the dot is neither first nor last in the name. *)
Definition suffix (name : string) : string :=
  let cs := list_ascii_of_string name in
  match rfind "."%char cs with
  | Some i =>
      if (0 <? i)%nat && (i <? List.length cs - 1)%nat
      then string_of_list_ascii (skipn i cs)
      else EmptyString
  | None => EmptyString
  end.

Definition lower_char (c : ascii) : ascii :=
  let n := nat_of_ascii c in
  if (65 <=? n)%nat && (n <=? 90)%nat then ascii_of_nat (n + 32) else c.

(** [str.lower], on ASCII letters. *)
Fixpoint lower (s : string) : string :=
  match s with
  | EmptyString => EmptyString
  | String c s' => String (lower_char c) (lower s')
  end.

(** [s in names]. *)
Definition str_in (s : string) (names : list string) : bool :=
  existsb (String.eqb s) names.

Definition supported_formats : list string :=
  [".png"; ".jpg"; ".jpeg"; ".tiff"; ".bmp"].

(** ** EXIF metadata *)

(** A Python dict with integer keys: its items in iteration order. *)
Definition dict (V : Type) : Type := list (Z * V).

(** [d[k]]; [None] for KeyError. *)
Fixpoint dict_get {V : Type} (d : dict V) (k : Z) : option V :=
  match d with
  | (k', v) :: d' => if k =? k' then Some v else dict_get d' k
  | [] => None
  end.

Definition dict_keys {V : Type} (d : dict V) : list Z := map fst d.

(** The entries of [PIL.ExifTags.TAGS] around the two names the program looks
    for; in the table of the library these names are bound to 306 and 36867
    and to no other number. *)
Definition TAGS : dict string :=
  [(256, "ImageWidth"); (257, "ImageLength"); (271, "Make"); (272, "Model");
   (274, "Orientation"); (306, "DateTime"); (34665, "ExifOffset");
   (36867, "DateTimeOriginal"); (36868, "DateTimeDigitized")].

(** The numbers of the two tags in that table. *)
Definition DateTimeOriginal : Z := 36867.
Definition DateTime : Z := 306.

(** What [TAGS.get(tag_id, tag_id)] gives: a name, or the number itself. *)
Inductive tag : Type :=
| TagName (s : string)
| TagId (tag_id : Z).

Definition TAGS_get (tag_id : Z) : tag :=
  match dict_get TAGS tag_id with
  | Some s => TagName s
  | None => TagId tag_id
  end.

(** [tag in names], for a list of strings: a number equals no string. *)
Definition tag_in (t : tag) (names : list string) : bool :=
  match t with
  | TagName s => str_in s names
  | TagId _ => false
  end.

(** A value of the EXIF mapping: a string, or anything else (bytes, a
    number, a tuple), for which [strptime] raises TypeError. *)
Inductive exif_value : Type :=
| ExifStr (s : string)
| ExifOther.

(** What [img._getexif()] does. *)
Inductive getexif_result : Type :=
| GetexifRaises
| GetexifNone
| GetexifDict (exif : dict exif_value).

(** What [Image.open] does on the entry, and for an image that opens, its
    metadata and what [pytesseract.image_to_string] does on it. *)
Inductive image_content : Type :=
| CannotOpen (msg : string)
| Opened (getexif : getexif_result) (image_to_string : result string).

Inductive entry_kind : Type :=
| RegularFile
| Directory
| SymbolicLink.

(** One entry of [Path(folder_path).iterdir()]. The program never looks at
    [kind]. [st_mtime] is [datetime.fromtimestamp(path.stat().st_mtime)]. *)
Record dir_entry : Type := mk_entry {
  name : string;
  kind : entry_kind;
  st_mtime : result datetime;
  image : image_content
}.

(** ** sorted(_, key=...)

    Python's [sorted] computes the key of every element once, in list order,
    and returns the elements in ascending key order, equal keys in their
    original order; it compares keys with [<] only.  The stable insertion
    below works on the (key, element) pairs. *)

Fixpoint insert_by_key {A : Type} (x : datetime * A) (l : list (datetime * A))
  : list (datetime * A) :=
  match l with
  | y :: l' =>
      if dt_ltb (fst y) (fst x) then y :: insert_by_key x l' else x :: y :: l'
  | [] => [x]
  end.

Fixpoint sort_by_key {A : Type} (l : list (datetime * A)) : list (datetime * A) :=
  match l with
  | x :: l' => insert_by_key x (sort_by_key l')
  | [] => []
  end.

(** Ascending keys. *)
Definition key_le {A : Type} (p q : datetime * A) : Prop := dt_leb (fst p) (fst q) = true.

(** ** The state of a run *)

(** The output file ([None]: it does not exist), the lines printed so far,
    and the names of the entries [get_image_creation_time] was called on, in
    call order. *)
Record state : Type := mk_state {
  output_file : option string;
  console : list string;
  resolve_calls : list string
}.

(** A computation: it ends in a value or an exception, and a new state. *)
Definition M (A : Type) : Type := state -> result A * state.

Definition ret {A : Type} (a : A) : M A := fun s => (Ok a, s).

Definition bind {A B : Type} (m : M A) (k : A -> M B) : M B :=
  fun s =>
    match m s with
    | (Ok a, s') => k a s'
    | (Raise e, s') => (Raise e, s')
    end.

Notation "x <- m ;; k" := (bind m (fun x => k))
  (at level 61, m at next level, right associativity).
Notation "' pat <- m ;; k" := (bind m (fun x => match x with pat => k end))
  (at level 61, pat pattern, m at next level, right associativity).
Notation "m ;; k" := (bind m (fun _ => k))
  (at level 61, right associativity).

(** [try: m  except Exception as e: handler(str(e))]. *)
Definition try_except {A : Type} (m : M A) (handler : string -> M A) : M A :=
  fun s =>
    match m s with
    | (Ok a, s') => (Ok a, s')
    | (Raise e, s') => handler e s'
    end.

Definition lift {A : Type} (r : result A) : M A := fun s => (r, s).

(** [print(line)] on a console that takes the line; [print_io] below is
    [print] on any console. *)
Definition print (line : string) : M unit :=
  fun s => (Ok tt, mk_state (output_file s) (console s ++ [line])%list (resolve_calls s)).

Definition content_of (f : option string) : string :=
  match f with
  | Some c => c
  | None => EmptyString
  end.

(** [open(output_file, 'a')]: the file is created when missing, and kept as
    it is otherwise. [Path.touch(exist_ok=True)] does the same to the content. *)
Definition open_append : M unit :=
  fun s => (Ok tt, mk_state (Some (content_of (output_file s))) (console s) (resolve_calls s)).

Definition touch : M unit := open_append.

(** [f.write(text)] on a file opened for appending that takes the text;
    [write_io] below is [f.write] on any file. *)
Definition write (text : string) : M unit :=
  fun s => (Ok tt, mk_state (Some (content_of (output_file s) ++ text)) (console s)
                            (resolve_calls s)).

(** The strings of a list, one after the other. *)
Definition concat_all (l : list string) : string := fold_right String.append EmptyString l.

Fixpoint for_each {A : Type} (l : list A) (body : A -> M unit) : M unit :=
  match l with
  | x :: l' => body x ;; for_each l' body
  | [] => ret tt
  end.

(** [[f(x) for x in l]], left to right; the first exception ends it. *)
Fixpoint map_M {A B : Type} (f : A -> M B) (l : list A) : M (list B) :=
  match l with
  | x :: l' => y <- f x ;; ys <- map_M f l' ;; ret (y :: ys)
  | [] => ret []
  end.

(** ** Sample directory *)

Definition at_noon (d : Z) : datetime := mk_datetime 2024 3 d 12 0 0 0.

(** The instants of the two strings of [camera_exif] below. *)
Definition t_capture : datetime := mk_datetime 2021 5 1 10 0 0 0.
Definition t_generic : datetime := mk_datetime 2023 1 1 12 0 0 0.

(** A camera picture as PIL reports it: the tags of the main directory
    (with DateTime) come before those of the Exif directory (with
    DateTimeOriginal). *)
Definition camera_exif : dict exif_value :=
  [(271, ExifStr "Canon"); (306, ExifStr "2023:01:01 12:00:00");
   (34665, ExifOther); (36867, ExifStr "2021:05:01 10:00:00")].

Definition camera_jpg : dir_entry :=
  mk_entry "camera.jpg" RegularFile (Ok (at_noon 9))
    (Opened (GetexifDict camera_exif) (Ok "holiday")).

(** The same two tags, the capture time first. *)
Definition edited_jpg : dir_entry :=
  mk_entry "edited.jpg" RegularFile (Ok (at_noon 9))
    (Opened (GetexifDict [(36867, ExifStr "2021:05:01 10:00:00");
                          (306, ExifStr "2023:01:01 12:00:00")]) (Ok "edited")).

(** A malformed DateTime followed by a well-formed DateTimeOriginal. *)
Definition dashes_jpg : dir_entry :=
  mk_entry "dashes.jpg" RegularFile (Ok (at_noon 9))
    (Opened (GetexifDict [(306, ExifStr "2023-01-01 12:00:00");
                          (36867, ExifStr "2021:05:01 10:00:00")]) (Ok "dashes")).

Definition a_png : dir_entry :=
  mk_entry "a.png" RegularFile (Ok (at_noon 2)) (Opened GetexifNone (Ok "page a")).

Definition b_txt : dir_entry :=
  mk_entry "b.txt" RegularFile (Ok (at_noon 1)) (CannotOpen "cannot identify image file").

Definition c_JPG : dir_entry :=
  mk_entry "c.JPG" RegularFile (Ok (at_noon 2))
    (Opened (GetexifDict [(271, ExifStr "Scanner")]) (Ok "page c")).

Definition d_dir : dir_entry :=
  mk_entry "d" Directory (Ok (at_noon 1)) (CannotOpen "Is a directory").

Definition scans_png_dir : dir_entry :=
  mk_entry "scans.png" Directory (Ok (at_noon 1)) (CannotOpen "Is a directory").

Definition broken_bmp : dir_entry :=
  mk_entry "broken.bmp" RegularFile (Ok (at_noon 3)) (CannotOpen "cannot identify image file").


Definition z_tiff : dir_entry :=
  mk_entry "z.tiff" RegularFile (Ok (at_noon 4)) (Opened GetexifRaises (Ok "page z")).

(** The directory of the extension example, with one more sub-directory. *)
Definition folder_with_dirs : list dir_entry :=
  [a_png; b_txt; c_JPG; d_dir; scans_png_dir].

(** Three images by time, the second of which does not decode. *)
Definition three_images : list dir_entry := [a_png; broken_bmp; z_tiff].

Definition images_dir : list dir_entry :=
  [z_tiff; broken_bmp; a_png; camera_jpg; c_JPG; b_txt; d_dir].

(** A link whose target is gone: neither [Image.open] nor [stat] succeeds. *)
Definition dangling_png : dir_entry :=
  mk_entry "dangling.png" SymbolicLink (Raise "No such file or directory")
    (CannotOpen "No such file or directory").

Definition empty_state : state := mk_state None [] [].
Definition old_state : state := mk_state (Some "old text") [] [].

(** A DateTime that is not a string before a well-formed DateTimeOriginal. *)
Definition odd_jpg : dir_entry :=
  mk_entry "odd.jpg" RegularFile (Ok (at_noon 5))
    (Opened (GetexifDict [(271, ExifStr "Canon"); (306, ExifOther);
                          (36867, ExifStr "2021:05:01 10:00:00")]) (Ok "odd")).

(** The camera picture behind a name on which [stat] fails. *)
Definition moved_jpg : dir_entry :=
  mk_entry "moved.jpg" SymbolicLink (Raise "No such file or directory")
    (Opened (GetexifDict camera_exif) (Ok "holiday")).

Definition A_PNG : dir_entry :=
  mk_entry "A.PNG" RegularFile (Ok (at_noon 6)) (Opened GetexifNone (Ok "page A")).

(** [three_images] as another listing gives them. *)
Definition three_images_listed_otherwise : list dir_entry := [z_tiff; a_png; broken_bmp].

Definition folder_with_dangling_link : list dir_entry := [a_png; b_txt; dangling_png; z_tiff].

(** ** The platform

    What the console and the output file do with the strings the program
    gives them, and how the platform writes an instant.  A Python string
    that came from the file system or from an exception message is kept
    here as the bytes it came from; bytes that are not UTF-8 stand for the
    lone surrogates Python reads them as, which no strict codec encodes. *)
Record platform : Type := mk_platform {
  (** [print(line)] can encode [line] for [sys.stdout]. *)
  stdout_accepts : string -> bool;
  (** [f.write(text)] can encode [text] for the output file. *)
  file_accepts : string -> bool;
  (** [str(e)] of the UnicodeEncodeError raised otherwise. *)
  encode_error : string -> string;
  (** [open(output_file, 'a')] raises, with this [str(e)]. *)
  open_error : option string;
  (** [timestamp.strftime('%Y-%m-%d %H:%M:%S')]. *)
  strftime_of : datetime -> string
}.

Definition in_range (lo hi b : nat) : bool := (lo <=? b)%nat && (b <=? hi)%nat.

Definition is_continuation (b : nat) : bool := in_range 128 191 b.

(** Well-formed UTF-8: no stray or overlong byte, no surrogate, nothing
    beyond U+10FFFF. *)
Fixpoint valid_utf8 (bs : list nat) : bool :=
  match bs with
  | [] => true
  | b :: r =>
      if (b <? 128)%nat then valid_utf8 r
      else if in_range 194 223 b then
        match r with
        | c1 :: r1 => is_continuation c1 && valid_utf8 r1
        | _ => false
        end
      else if in_range 224 239 b then
        match r with
        | c1 :: c2 :: r2 =>
            (if (b =? 224)%nat then in_range 160 191 c1
             else if (b =? 237)%nat then in_range 128 159 c1
             else is_continuation c1)
            && is_continuation c2 && valid_utf8 r2
        | _ => false
        end
      else if in_range 240 244 b then
        match r with
        | c1 :: c2 :: c3 :: r3 =>
            (if (b =? 240)%nat then in_range 144 191 c1
             else if (b =? 244)%nat then in_range 128 143 c1
             else is_continuation c1)
            && is_continuation c2 && is_continuation c3 && valid_utf8 r3
        | _ => false
        end
      else false
  end.

Definition utf8_encodable (s : string) : bool :=
  valid_utf8 (map nat_of_ascii (list_ascii_of_string s)).

(** A console and a file with the strict UTF-8 codec, the file opening. *)
Definition utf8_platform : platform :=
  mk_platform utf8_encodable utf8_encodable
    (fun _ => "'utf-8' codec can't encode character: surrogates not allowed")
    None strftime.

(** A console and a file that take every string. *)
Definition plain_platform : platform :=
  mk_platform (fun _ => true) (fun _ => true) (fun _ => EmptyString) None strftime.


(** An image whose name holds a byte that is not UTF-8. *)
Definition raw_png : dir_entry :=
  mk_entry ("bad" ++ String (ascii_of_nat 255) ".png") RegularFile (Ok (at_noon 3))
    (Opened GetexifNone (Ok "page raw")).

Definition folder_with_raw_name : list dir_entry := [a_png; raw_png; z_tiff].

(** A file that is no image, with a name that holds a byte that is not
    UTF-8. *)
Definition raw_bmp : dir_entry :=
  mk_entry ("bad" ++ String (ascii_of_nat 255) ".bmp") RegularFile (Ok (at_noon 3))
    (CannotOpen "cannot identify image file").

Definition folder_with_raw_broken : list dir_entry := [a_png; raw_bmp; z_tiff].

(** Distinct keys of a literal mapping. *)
Ltac nodup_keys :=
  repeat (constructor; [simpl; intuition discriminate|]); constructor.

Section Clio.

(** [datetime.strptime(_, '%Y:%m:%d %H:%M:%S')]: [None] for ValueError. *)
Variable strptime : string -> option datetime.

(** ** get_image_creation_time *)

(** The [for tag_id in exif] loop: [Ok (Some r)] when it returns [r],
    [Ok None] when it ends without returning, [Raise] when an exception other
    than the ValueError of [strptime] leaves it. *)
Fixpoint scan_tags (exif : dict exif_value) (tag_ids : list Z)
  : result (option (datetime * string)) :=
  match tag_ids with
  | tag_id :: rest =>
      let tag := TAGS_get tag_id in
      if tag_in tag ["DateTimeOriginal"; "DateTime"] then
        match dict_get exif tag_id with
        | Some (ExifStr date_str) =>
            match strptime date_str with
            | Some t => Ok (Some (t, "EXIF"))
            | None => scan_tags exif rest
            end
        | Some ExifOther => Raise "strptime() argument 1 must be str"
        | None => Raise "KeyError"
        end
      else scan_tags exif rest
  | [] => Ok None
  end.

(** The body of the outer [try]. *)
Definition read_exif_time (image_path : dir_entry) : result (option (datetime * string)) :=
  match image image_path with
  | CannotOpen msg => Raise msg
  | Opened GetexifRaises _ => Raise "_getexif"
  | Opened GetexifNone _ => Ok None
  | Opened (GetexifDict exif) _ =>
      match exif with
      | [] => Ok None
      | _ :: _ => scan_tags exif (dict_keys exif)
      end
  end.

Definition get_image_creation_time (image_path : dir_entry) : result (datetime * string) :=
  match read_exif_time image_path with
  | Ok (Some r) => Ok r
  | Ok None | Raise _ =>
      match st_mtime image_path with
      | Ok t => Ok (t, "mtime")
      | Raise e => Raise e
      end
  end.

(** A call of [get_image_creation_time] in a run: the call is recorded. *)
Definition call_get_image_creation_time (image_path : dir_entry) : M (datetime * string) :=
  fun s =>
    (get_image_creation_time image_path,
     mk_state (output_file s) (console s) (resolve_calls s ++ [name image_path])%list).

(** ** get_image_files *)

Definition is_supported (file_path : dir_entry) : bool :=
  str_in (lower (suffix (name file_path))) supported_formats.

(** The key of the sort, [get_image_creation_time(x)[0]], paired with [x]. *)
Definition with_key (x : dir_entry) : M (datetime * dir_entry) :=
  r <- call_get_image_creation_time x ;; ret (fst r, x).

Definition get_image_files (iterdir : list dir_entry) : M (list dir_entry) :=
  let image_files := filter is_supported iterdir in
  keyed <- map_M with_key image_files ;;
  ret (map snd (sort_by_key keyed)).

(** ** process_images *)

(** [Image.open(image_path)] and [pytesseract.image_to_string(img)]. *)
Definition recognize (image_path : dir_entry) : result string :=
  match image image_path with
  | CannotOpen msg => Raise msg
  | Opened _ image_to_string => image_to_string
  end.

Definition header (file_name time_source formatted_time : string) : string :=
  newline ++ "--- Text from " ++ file_name ++ " (" ++ time_source ++ " time: "
  ++ formatted_time ++ ") ---" ++ newline.

(** One turn of the loop of [process_images]. *)
Definition process_one (image_path : dir_entry) : M unit :=
  try_except
    ('(timestamp, time_source) <- call_get_image_creation_time image_path ;;
     let formatted_time := strftime timestamp in
     text <- lift (recognize image_path) ;;
     open_append ;;
     write (header (name image_path) time_source formatted_time) ;;
     write text ;;
     write newline ;;
     print ("Processed: " ++ name image_path ++ " (using " ++ time_source ++ " timestamp)"))
    (fun e => print ("Error processing " ++ name image_path ++ ": " ++ e)).

Definition process_images (folder_path : string) (iterdir : list dir_entry) : M unit :=
  image_files <- get_image_files iterdir ;;
  match image_files with
  | [] => print ("No supported image files found in " ++ folder_path)
  | _ :: _ => for_each image_files process_one
  end.

(** The [__main__] block: the output file is created when missing, then the
    folder "images" is processed. *)
Definition main (iterdir : list dir_entry) : M unit :=
  touch ;;
  process_images "images" iterdir.

(** ** What a run is expected to leave behind

    The pure counterparts of the effectful definitions above, in which the
    theorems are stated. *)

(** The result of [get_image_creation_time] as a boolean and as an option. *)
Definition resolves (e : dir_entry) : bool :=
  match get_image_creation_time e with
  | Ok _ => true
  | Raise _ => false
  end.

Definition resolved_time (e : dir_entry) : option datetime :=
  match get_image_creation_time e with
  | Ok r => Some (fst r)
  | Raise _ => None
  end.

Definition has_time (t : datetime) (e : dir_entry) : bool :=
  match resolved_time e with
  | Some t' => dt_eqb t' t
  | None => false
  end.

(** [a] is resolved no later than [b]. *)
Definition time_le (a b : dir_entry) : Prop :=
  exists ta tb, resolved_time a = Some ta /\ resolved_time b = Some tb /\
                dt_leb ta tb = true.

(** The keys of a list of entries, when every one resolves. *)
Fixpoint keyed (l : list dir_entry) : result (list (datetime * dir_entry)) :=
  match l with
  | x :: l' =>
      match get_image_creation_time x with
      | Ok r =>
          match keyed l' with
          | Ok ys => Ok ((fst r, x) :: ys)
          | Raise e => Raise e
          end
      | Raise e => Raise e
      end
  | [] => Ok []
  end.

(** The entries [get_image_creation_time] is called on while the keys are
    computed: up to the first one that raises, included. *)
Fixpoint keyed_calls (l : list dir_entry) : list string :=
  match l with
  | x :: l' =>
      match get_image_creation_time x with
      | Ok _ => name x :: keyed_calls l'
      | Raise _ => [name x]
      end
  | [] => []
  end.

(** The list [get_image_files] returns. *)
Definition sorted_files (iterdir : list dir_entry) : result (list dir_entry) :=
  match keyed (filter is_supported iterdir) with
  | Ok k => Ok (map snd (sort_by_key k))
  | Raise e => Raise e
  end.

(** The line one turn of the loop prints. *)
Definition report_line (e : dir_entry) : string :=
  match get_image_creation_time e with
  | Ok (_, time_source) =>
      match recognize e with
      | Ok _ => "Processed: " ++ name e ++ " (using " ++ time_source ++ " timestamp)"
      | Raise msg => "Error processing " ++ name e ++ ": " ++ msg
      end
  | Raise msg => "Error processing " ++ name e ++ ": " ++ msg
  end.

(** The block one turn of the loop appends; nothing when the turn fails. *)
Definition block (e : dir_entry) : string :=
  match get_image_creation_time e with
  | Ok (timestamp, time_source) =>
      match recognize e with
      | Ok text => header (name e) time_source (strftime timestamp) ++ text ++ newline
      | Raise _ => EmptyString
      end
  | Raise _ => EmptyString
  end.

(** Whether a turn of the loop opens the output file. *)
Definition succeeds (e : dir_entry) : bool :=
  match get_image_creation_time e, recognize e with
  | Ok _, Ok _ => true
  | _, _ => false
  end.

(** The file after the turns on [l]: opened, and so made to exist, by every
    turn that succeeds. *)
Definition output_after (f : option string) (l : list dir_entry) : option string :=
  if existsb succeeds l then Some (content_of f ++ concat_all (map block l)) else f.


(** A mapping item that gives a capture time: a looked-for tag with a string
    that [strptime] accepts. *)
Definition looked_for (tag_id : Z) : bool :=
  tag_in (TAGS_get tag_id) ["DateTimeOriginal"; "DateTime"].

Definition parsable_item (kv : Z * exif_value) : bool :=
  looked_for (fst kv) &&
  match snd kv with
  | ExifStr s => match strptime s with Some _ => true | None => false end
  | ExifOther => false
  end.



(** ** process_images on a platform

    [print], [open] and [f.write] as they can fail: the loop of
    [process_images] with these.  On [plain_platform] it is [process_one]
    and [process_images] above. *)

Variable io : platform.

Definition print_io (line : string) : M unit :=
  fun s =>
    if stdout_accepts io line then print line s
    else (Raise (encode_error io line), s).

Definition open_append_io : M unit :=
  fun s =>
    match open_error io with
    | Some msg => (Raise msg, s)
    | None => open_append s
    end.

Definition write_io (text : string) : M unit :=
  fun s =>
    if file_accepts io text then write text s
    else (Raise (encode_error io text), s).

Definition process_one_io (image_path : dir_entry) : M unit :=
  try_except
    ('(timestamp, time_source) <- call_get_image_creation_time image_path ;;
     let formatted_time := strftime_of io timestamp in
     text <- lift (recognize image_path) ;;
     open_append_io ;;
     write_io (header (name image_path) time_source formatted_time) ;;
     write_io text ;;
     write_io newline ;;
     print_io ("Processed: " ++ name image_path ++ " (using " ++ time_source ++ " timestamp)"))
    (fun e => print_io ("Error processing " ++ name image_path ++ ": " ++ e)).

Definition process_images_io (folder_path : string) (iterdir : list dir_entry) : M unit :=
  image_files <- get_image_files iterdir ;;
  match image_files with
  | [] => print_io ("No supported image files found in " ++ folder_path)
  | _ :: _ => for_each image_files process_one_io
  end.

(** ** The order of datetimes *)

Lemma lex_ltb_irrefl (a : list Z) : lex_ltb a a = false.
Proof.
  induction a as [|x a IH]; simpl; [reflexivity|].
  rewrite Z.ltb_irrefl, Z.eqb_refl, IH. reflexivity.
Qed.

Lemma lex_ltb_trans (a b c : list Z) :
  lex_ltb a b = true -> lex_ltb b c = true -> lex_ltb a c = true.
Proof.
  revert b c. induction a as [|x a IH]; intros [|y b] [|z c]; simpl; try discriminate; auto.
  intros Hab Hbc.
  apply orb_true_iff in Hab. apply orb_true_iff in Hbc. apply orb_true_iff.
  destruct Hab as [Hab|Hab], Hbc as [Hbc|Hbc].
  - left. apply Z.ltb_lt in Hab, Hbc. apply Z.ltb_lt. lia.
  - apply andb_true_iff in Hbc as [Hyz _]. apply Z.eqb_eq in Hyz. subst. now left.
  - apply andb_true_iff in Hab as [Hxy _]. apply Z.eqb_eq in Hxy. subst. now left.
  - apply andb_true_iff in Hab as [Hxy Hab]. apply andb_true_iff in Hbc as [Hyz Hbc].
    right. apply Z.eqb_eq in Hxy, Hyz. subst. rewrite Z.eqb_refl. simpl. eauto.
Qed.

Lemma lex_ltb_total (a b : list Z) :
  lex_ltb a b = false -> lex_ltb b a = false -> a = b.
Proof.
  revert b. induction a as [|x a IH]; intros [|y b]; simpl; try discriminate; auto.
  intros Hab Hba.
  apply orb_false_iff in Hab as [Hlt1 H1]. apply orb_false_iff in Hba as [Hlt2 H2].
  apply Z.ltb_ge in Hlt1, Hlt2. assert (x = y) by lia. subst.
  rewrite Z.eqb_refl in H1, H2. simpl in H1, H2. f_equal. auto.
Qed.

Lemma dt_fields_inj (d1 d2 : datetime) : dt_fields d1 = dt_fields d2 -> d1 = d2.
Proof.
  destruct d1, d2. unfold dt_fields. simpl. intros H. injection H. intros. subst. reflexivity.
Qed.

Lemma dt_eqb_eq (d1 d2 : datetime) : dt_eqb d1 d2 = true <-> d1 = d2.
Proof.
  split.
  - unfold dt_eqb. intros H. repeat (apply andb_true_iff in H as [H ?]).
    destruct d1, d2. simpl in *.
    repeat match goal with E : (_ =? _) = true |- _ => apply Z.eqb_eq in E end.
    subst. reflexivity.
  - intros ->. unfold dt_eqb. now rewrite !Z.eqb_refl.
Qed.

Lemma dt_eqb_refl (d : datetime) : dt_eqb d d = true.
Proof. now apply dt_eqb_eq. Qed.

Lemma dt_ltb_irrefl (d : datetime) : dt_ltb d d = false.
Proof. apply lex_ltb_irrefl. Qed.

Lemma dt_ltb_trans (a b c : datetime) :
  dt_ltb a b = true -> dt_ltb b c = true -> dt_ltb a c = true.
Proof. apply lex_ltb_trans. Qed.

(** [a <= b] is [not (b < a)]: the order is total. *)
Lemma dt_leb_not_ltb (a b : datetime) : dt_leb a b = true <-> dt_ltb b a = false.
Proof.
  unfold dt_leb. split.
  - intros H. apply orb_true_iff in H as [H|H].
    + destruct (dt_ltb b a) eqn:E; [|reflexivity].
      pose proof (dt_ltb_trans _ _ _ H E) as C. now rewrite dt_ltb_irrefl in C.
    + apply dt_eqb_eq in H. subst. apply dt_ltb_irrefl.
  - intros H. destruct (dt_ltb a b) eqn:E; [reflexivity|]. simpl.
    apply dt_eqb_eq, dt_fields_inj, lex_ltb_total; assumption.
Qed.

Lemma dt_leb_trans (a b c : datetime) :
  dt_leb a b = true -> dt_leb b c = true -> dt_leb a c = true.
Proof.
  unfold dt_leb. intros H1 H2.
  apply orb_true_iff in H1 as [H1|H1]; apply orb_true_iff in H2 as [H2|H2].
  - now rewrite (dt_ltb_trans _ _ _ H1 H2).
  - apply dt_eqb_eq in H2. subst. now rewrite H1.
  - apply dt_eqb_eq in H1. subst. now rewrite H2.
  - apply dt_eqb_eq in H1. subst. rewrite H2. apply orb_true_r.
Qed.

(** ** sort_by_key: a permutation, ascending, stable *)

Lemma insert_by_key_perm {A : Type} (x : datetime * A) (l : list (datetime * A)) :
  Permutation (insert_by_key x l) (x :: l).
Proof.
  induction l as [|y l IH]; simpl; [constructor; constructor|].
  destruct (dt_ltb (fst y) (fst x)); [|reflexivity].
  rewrite IH. apply perm_swap.
Qed.

Lemma sort_by_key_perm {A : Type} (l : list (datetime * A)) :
  Permutation (sort_by_key l) l.
Proof.
  induction l as [|x l IH]; simpl; [constructor|].
  rewrite insert_by_key_perm. now constructor.
Qed.

Lemma insert_by_key_sorted {A : Type} (x : datetime * A) (l : list (datetime * A)) :
  StronglySorted key_le l -> StronglySorted key_le (insert_by_key x l).
Proof.
  induction l as [|y l IH]; simpl; intros Hs.
  - repeat constructor.
  - apply StronglySorted_inv in Hs as [Hs Hy].
    destruct (dt_ltb (fst y) (fst x)) eqn:E.
    + constructor; [auto|].
      apply (Permutation_Forall (Permutation_sym (insert_by_key_perm x l))).
      constructor; [|assumption].
      unfold key_le, dt_leb. now rewrite E.
    + assert (Hxy : key_le x y) by (now apply dt_leb_not_ltb).
      constructor; [constructor; assumption|].
      constructor; [assumption|].
      eapply Forall_impl; [|exact Hy].
      intros z Hz. unfold key_le in *. eapply dt_leb_trans; eassumption.
Qed.

Lemma sort_by_key_sorted {A : Type} (l : list (datetime * A)) :
  StronglySorted key_le (sort_by_key l).
Proof.
  induction l as [|x l IH]; simpl; [constructor|]. now apply insert_by_key_sorted.
Qed.

Lemma insert_by_key_stable {A : Type} (t : datetime) (x : datetime * A)
      (l : list (datetime * A)) :
  filter (fun p => dt_eqb (fst p) t) (insert_by_key x l) =
  filter (fun p => dt_eqb (fst p) t) (x :: l).
Proof.
  induction l as [|y l IH]; [reflexivity|].
  simpl insert_by_key. destruct (dt_ltb (fst y) (fst x)) eqn:E; [|reflexivity].
  simpl in *. rewrite IH.
  destruct (dt_eqb (fst x) t) eqn:Ex, (dt_eqb (fst y) t) eqn:Ey; try reflexivity.
  apply dt_eqb_eq in Ex, Ey. subst t. rewrite Ey in E.
  now rewrite dt_ltb_irrefl in E.
Qed.

Lemma sort_by_key_stable {A : Type} (t : datetime) (l : list (datetime * A)) :
  filter (fun p => dt_eqb (fst p) t) (sort_by_key l) =
  filter (fun p => dt_eqb (fst p) t) l.
Proof.
  induction l as [|x l IH]; [reflexivity|].
  simpl sort_by_key. rewrite insert_by_key_stable. simpl. now rewrite IH.
Qed.

Lemma dt_leb_antisym (a b : datetime) :
  dt_leb a b = true -> dt_leb b a = true -> a = b.
Proof.
  intros Hab Hba. apply dt_leb_not_ltb in Hab.
  unfold dt_leb in Hba. rewrite Hab in Hba. simpl in Hba.
  symmetry. now apply dt_eqb_eq.
Qed.

Lemma in_filter_key {A : Type} (p : datetime * A) (l : list (datetime * A)) :
  In p l <-> In p (filter (fun q => dt_eqb (fst q) (fst p)) l).
Proof.
  rewrite filter_In. rewrite dt_eqb_refl. tauto.
Qed.

(** A list has one ascending stable arrangement: whatever algorithm
    [sorted] runs, its result is that of [sort_by_key]. *)
Lemma stable_sorted_unique {A : Type} (l1 l2 : list (datetime * A)) :
  StronglySorted key_le l1 ->
  StronglySorted key_le l2 ->
  (forall t, filter (fun p => dt_eqb (fst p) t) l1 =
             filter (fun p => dt_eqb (fst p) t) l2) ->
  l1 = l2.
Proof.
  revert l2. induction l1 as [|x l1 IH]; intros [|y l2] Hs1 Hs2 Hf.
  - reflexivity.
  - specialize (Hf (fst y)). simpl in Hf. rewrite dt_eqb_refl in Hf. discriminate.
  - specialize (Hf (fst x)). simpl in Hf. rewrite dt_eqb_refl in Hf. discriminate.
  - apply StronglySorted_inv in Hs1 as [Hs1 Hx]. apply StronglySorted_inv in Hs2 as [Hs2 Hy].
    assert (Hxy : x = y).
    { destruct (dt_eqb (fst y) (fst x)) eqn:E.
      - pose proof (Hf (fst x)) as H. simpl in H. rewrite dt_eqb_refl, E in H.
        now injection H.
      - exfalso.
        assert (Hin_x : In x (y :: l2)).
        { apply (proj2 (in_filter_key _ _)). rewrite <- Hf.
          apply (proj1 (in_filter_key _ _)). now left. }
        assert (Hin_y : In y (x :: l1)).
        { apply (proj2 (in_filter_key _ _)). rewrite Hf.
          apply (proj1 (in_filter_key _ _)). now left. }
        destruct Hin_x as [->|Hin_x]; [now rewrite dt_eqb_refl in E|].
        destruct Hin_y as [->|Hin_y]; [now rewrite dt_eqb_refl in E|].
        rewrite Forall_forall in Hx, Hy.
        pose proof (dt_leb_antisym _ _ (Hy _ Hin_x) (Hx _ Hin_y)) as Heq.
        rewrite Heq, dt_eqb_refl in E. discriminate. }
    subst y. f_equal. apply IH; try assumption.
    intros t. specialize (Hf t). simpl in Hf.
    destruct (dt_eqb (fst x) t); [now injection Hf|exact Hf].
Qed.

Lemma sort_by_key_unique {A : Type} (l l' : list (datetime * A)) :
  StronglySorted key_le l' ->
  (forall t, filter (fun p => dt_eqb (fst p) t) l' =
             filter (fun p => dt_eqb (fst p) t) l) ->
  l' = sort_by_key l.
Proof.
  intros Hs Hf. apply stable_sorted_unique; [assumption|apply sort_by_key_sorted|].
  intros t. now rewrite sort_by_key_stable.
Qed.

(** ** Strings *)

Lemma string_app_assoc (a b c : string) : (a ++ b) ++ c = a ++ (b ++ c).
Proof. induction a as [|x a IH]; simpl; [reflexivity|]. now rewrite IH. Qed.

Lemma string_app_nil_r (a : string) : a ++ EmptyString = a.
Proof. induction a as [|x a IH]; simpl; [reflexivity|]. now rewrite IH. Qed.

(** ** The mapping and the tag table *)

Lemma dict_get_in {V : Type} (d : dict V) (k : Z) (v : V) :
  dict_get d k = Some v -> In (k, v) d.
Proof.
  induction d as [|[k' v'] d IH]; simpl; [discriminate|].
  destruct (Z.eqb_spec k k') as [->|Hne].
  - intros [= ->]. now left.
  - intros H. right. auto.
Qed.

(** In a mapping, whose keys are distinct, an item is found under its key. *)
Lemma dict_get_nodup {V : Type} (d : dict V) (k : Z) (v : V) :
  NoDup (dict_keys d) -> In (k, v) d -> dict_get d k = Some v.
Proof.
  induction d as [|[k' v'] d IH]; simpl; [contradiction|].
  intros Hnd [H|H].
  - injection H as -> ->. now rewrite Z.eqb_refl.
  - apply NoDup_cons_iff in Hnd as [Hnotin Hnd].
    destruct (Z.eqb_spec k k') as [->|Hne]; [|auto].
    exfalso. apply Hnotin. unfold dict_keys. apply in_map_iff. now exists (k', v).
Qed.

(** The two names are bound to 36867 and 306 only. *)
Lemma looked_for_iff (tag_id : Z) :
  looked_for tag_id = true <-> tag_id = DateTimeOriginal \/ tag_id = DateTime.
Proof.
  unfold looked_for, TAGS_get, TAGS, DateTimeOriginal, DateTime. simpl.
  repeat match goal with
         | |- context [tag_id =? ?n] => destruct (Z.eqb_spec tag_id n) as [->|?]
         end; simpl; split; intros H; try discriminate; try reflexivity; auto;
    destruct H; congruence.
Qed.

(** ** The scan of the metadata *)

(** The scan returns at the first looked-for tag whose string parses, when
    the looked-for tags before it hold strings that do not. *)
Lemma scan_tags_first_parsable (exif : dict exif_value) (keys1 keys2 : list Z)
      (k : Z) (s : string) (t : datetime) :
  Forall (fun k' => looked_for k' = false \/
                    exists s', dict_get exif k' = Some (ExifStr s') /\ strptime s' = None)
         keys1 ->
  looked_for k = true ->
  dict_get exif k = Some (ExifStr s) ->
  strptime s = Some t ->
  scan_tags exif (keys1 ++ k :: keys2) = Ok (Some (t, "EXIF")).
Proof.
  intros Hbefore Hk Hget Hparse.
  induction Hbefore as [|k' keys1 Hk' _ IH]; simpl.
  - unfold looked_for in Hk. now rewrite Hk, Hget, Hparse.
  - destruct Hk' as [Hno|(s' & Hget' & Hnone)].
    + unfold looked_for in Hno. now rewrite Hno.
    + destruct (tag_in (TAGS_get k') _); [|exact IH].
      now rewrite Hget', Hnone.
Qed.


(** With both tags present and parsable, the scan returns the value of the
    one that is met first. *)
Lemma scan_tags_both (exif : dict exif_value) (s_orig s_gen : string)
      (t_orig t_gen : datetime) (keys : list Z) :
  dict_get exif DateTimeOriginal = Some (ExifStr s_orig) ->
  dict_get exif DateTime = Some (ExifStr s_gen) ->
  strptime s_orig = Some t_orig ->
  strptime s_gen = Some t_gen ->
  In DateTimeOriginal keys \/ In DateTime keys ->
  scan_tags exif keys =
    Ok (Some (if comes_first DateTimeOriginal DateTime keys then t_orig else t_gen, "EXIF")).
Proof.
  intros Ho Hg Hpo Hpg. induction keys as [|k keys IH]; intros Hin.
  - destruct Hin as [[]|[]].
  - simpl. destruct (Z.eqb_spec k DateTimeOriginal) as [->|Hno].
    + change (tag_in (TAGS_get DateTimeOriginal) _) with true. cbv iota.
      now rewrite Ho, Hpo.
    + destruct (Z.eqb_spec k DateTime) as [->|Hng].
      * change (tag_in (TAGS_get DateTime) _) with true. cbv iota.
        now rewrite Hg, Hpg.
      * assert (Hk : looked_for k = false).
        { destruct (looked_for k) eqn:E; [|reflexivity].
          apply looked_for_iff in E. destruct E; contradiction. }
        unfold looked_for in Hk. rewrite Hk. apply IH.
        destruct Hin as [[|]|[|]]; try congruence; auto.
Qed.

(** Past the scan, the result is the fallback. *)
Lemma fallback_to_mtime (e : dir_entry) :
  (forall r, read_exif_time e <> Ok (Some r)) ->
  get_image_creation_time e =
    match st_mtime e with
    | Ok t => Ok (t, "mtime")
    | Raise msg => Raise msg
    end.
Proof.
  intros H. unfold get_image_creation_time.
  destruct (read_exif_time e) as [[r|]|msg]; [|reflexivity|reflexivity].
  now destruct (H r).
Qed.

Lemma read_exif_time_dict (e : dir_entry) (exif : dict exif_value) (ocr : result string)
      (k : Z) (v : exif_value) :
  image e = Opened (GetexifDict exif) ocr ->
  In (k, v) exif ->
  read_exif_time e = scan_tags exif (dict_keys exif).
Proof.
  intros Himg Hin. unfold read_exif_time. rewrite Himg.
  destruct exif; [contradiction|reflexivity].
Qed.

(** ** get_image_creation_time *)

(** C1, as the code has it: for an image whose metadata holds both
    DateTimeOriginal and DateTime with parsable values,
    [get_image_creation_time] returns, with source 'EXIF', the instant of
    whichever of the two tags comes first in the iteration order of the
    metadata mapping: the capture-specific one when DateTimeOriginal is
    iterated first, the generic one when DateTime is. *)
Theorem both_tags_first_in_iteration_order_wins
        (e : dir_entry) (exif : dict exif_value) (ocr : result string)
        (s_orig s_gen : string) (t_orig t_gen : datetime) :
  image e = Opened (GetexifDict exif) ocr ->
  NoDup (dict_keys exif) ->
  In (DateTimeOriginal, ExifStr s_orig) exif ->
  In (DateTime, ExifStr s_gen) exif ->
  strptime s_orig = Some t_orig ->
  strptime s_gen = Some t_gen ->
  get_image_creation_time e =
    Ok (if comes_first DateTimeOriginal DateTime (dict_keys exif) then t_orig else t_gen,
        "EXIF").
Proof.
  intros Himg Hnd Hino Hing Hpo Hpg.
  unfold get_image_creation_time.
  rewrite (read_exif_time_dict _ _ _ _ _ Himg Hino).
  rewrite (scan_tags_both exif s_orig s_gen t_orig t_gen); auto using dict_get_nodup.
  left. unfold dict_keys. apply in_map_iff. now exists (DateTimeOriginal, ExifStr s_orig).
Qed.



(** C10, as the code has it: when the scan meets a looked-for tag whose
    value is a string that does not parse, it goes on; a looked-for tag
    further in the iteration order whose string parses gives that instant,
    with source 'EXIF', and not the modification time. *)
Theorem malformed_tag_does_not_end_scan
        (e : dir_entry) (ocr : result string)
        (before between after : dict exif_value)
        (k_bad k_good : Z) (s_bad s_good : string) (t : datetime) :
  image e = Opened (GetexifDict (before ++ (k_bad, ExifStr s_bad) :: between
                                   ++ (k_good, ExifStr s_good) :: after)%list) ocr ->
  NoDup (dict_keys (before ++ (k_bad, ExifStr s_bad) :: between
                      ++ (k_good, ExifStr s_good) :: after)%list) ->
  looked_for k_bad = true ->
  strptime s_bad = None ->
  looked_for k_good = true ->
  strptime s_good = Some t ->
  get_image_creation_time e = Ok (t, "EXIF").
Proof.
  intros Himg Hnd Hbad Hnone Hgood Hparse.
  set (exif := (before ++ (k_bad, ExifStr s_bad) :: between
                  ++ (k_good, ExifStr s_good) :: after)%list) in *.
  assert (Hin_bad : In (k_bad, ExifStr s_bad) exif).
  { unfold exif. apply in_or_app. right. now left. }
  assert (Hin_good : In (k_good, ExifStr s_good) exif).
  { unfold exif. apply in_or_app. right. right. apply in_or_app. right. now left. }
  pose proof (dict_get_nodup _ _ _ Hnd Hin_bad) as Hget_bad.
  pose proof (dict_get_nodup _ _ _ Hnd Hin_good) as Hget_good.
  unfold get_image_creation_time.
  rewrite (read_exif_time_dict _ _ _ _ _ Himg Hin_bad).
  assert (Hkeys : dict_keys exif =
                  ((dict_keys before ++ k_bad :: dict_keys between) ++
                   k_good :: dict_keys after)%list).
  { unfold exif, dict_keys. rewrite !map_app. simpl. rewrite map_app. simpl.
    now rewrite <- app_assoc. }
  rewrite Hkeys in *.
  rewrite (scan_tags_first_parsable exif _ _ k_good s_good t); auto.
  (* the keys met before [k_good] *)
  assert (Hne : k_bad <> k_good).
  { intros ->. rewrite Hget_bad in Hget_good. congruence. }
  assert (Hother : forall k, In k (dict_keys before ++ dict_keys between)%list ->
                             looked_for k = false).
  { intros k Hk. destruct (looked_for k) eqn:E; [|reflexivity]. exfalso.
    assert (Hk2 : k = k_bad \/ k = k_good).
    { apply looked_for_iff in E, Hbad, Hgood.
      destruct E, Hbad, Hgood; subst; auto; congruence. }
    rewrite <- app_assoc in Hnd. simpl in Hnd.
    apply in_app_or in Hk.
    destruct Hk2 as [->| ->].
    - apply NoDup_remove_2 in Hnd. apply Hnd.
      apply in_or_app. destruct Hk as [Hk|Hk]; [now left|].
      right. apply in_or_app. now left.
    - rewrite app_comm_cons, app_assoc in Hnd.
      apply NoDup_remove_2 in Hnd. apply Hnd.
      apply in_or_app. left. apply in_or_app.
      destruct Hk as [Hk|Hk]; [now left|]. right. now right. }
  apply Forall_forall. intros k Hk.
  apply in_app_or in Hk. destruct Hk as [Hk|[<-|Hk]].
  - left. apply Hother. apply in_or_app. now left.
  - right. now exists s_bad.
  - left. apply Hother. apply in_or_app. now right.
Qed.

(** ** The keys of the sort *)

Lemma state_eta (s : state) :
  mk_state (output_file s) (console s) (resolve_calls s) = s.
Proof. now destruct s. Qed.

Lemma map_M_with_key (l : list dir_entry) (s : state) :
  map_M with_key l s =
    (keyed l, mk_state (output_file s) (console s) (resolve_calls s ++ keyed_calls l)%list).
Proof.
  revert s. induction l as [|x l IH]; intros s; simpl.
  - unfold ret. now rewrite app_nil_r, state_eta.
  - unfold bind at 1. unfold with_key at 1. unfold bind at 1.
    unfold call_get_image_creation_time at 1.
    destruct (get_image_creation_time x) as [r|msg]; [|reflexivity].
    unfold ret at 1. unfold bind at 1. rewrite IH. simpl.
    rewrite <- app_assoc. simpl.
    destruct (keyed l); reflexivity.
Qed.

Lemma keyed_ok (l : list dir_entry) (k : list (datetime * dir_entry)) :
  keyed l = Ok k ->
  keyed_calls l = map name l /\ map snd k = l /\
  Forall (fun p => resolved_time (snd p) = Some (fst p)) k.
Proof.
  revert k. induction l as [|x l IH]; intros k; simpl.
  - intros [= <-]. repeat split. constructor.
  - unfold resolved_time.
    destruct (get_image_creation_time x) as [r|msg] eqn:Hx; [|discriminate].
    destruct (keyed l) as [ys|msg]; [|discriminate].
    intros [= <-]. destruct (IH ys eq_refl) as (Hc & Hs & Hf).
    simpl. rewrite Hc, Hs. repeat split. constructor; [|exact Hf].
    simpl. now rewrite Hx.
Qed.

Lemma keyed_total (l : list dir_entry) :
  forallb resolves l = true -> exists k, keyed l = Ok k.
Proof.
  induction l as [|x l IH]; simpl; [now exists []|].
  intros H. apply andb_true_iff in H as [Hx Hl].
  unfold resolves in Hx. destruct (get_image_creation_time x) as [r|]; [|discriminate].
  destruct (IH Hl) as [k ->]. eauto.
Qed.

Lemma get_image_files_run (iterdir : list dir_entry) (s : state) :
  get_image_files iterdir s =
    (sorted_files iterdir,
     mk_state (output_file s) (console s)
              (resolve_calls s ++ keyed_calls (filter is_supported iterdir))%list).
Proof.
  unfold get_image_files, sorted_files, bind. rewrite map_M_with_key.
  destruct (keyed (filter is_supported iterdir)); reflexivity.
Qed.

(** What [get_image_files] returns, when every candidate resolves. *)
Lemma sorted_files_ok (iterdir l : list dir_entry) :
  sorted_files iterdir = Ok l ->
  keyed_calls (filter is_supported iterdir) = map name (filter is_supported iterdir) /\
  Permutation l (filter is_supported iterdir) /\
  StronglySorted time_le l /\
  forall t, filter (has_time t) l = filter (has_time t) (filter is_supported iterdir).
Proof.
  unfold sorted_files.
  destruct (keyed (filter is_supported iterdir)) as [k|msg] eqn:Hk; [|discriminate].
  intros [= <-]. destruct (keyed_ok _ _ Hk) as (Hcalls & Hsnd & Hkeys).
  assert (Hkeys' : Forall (fun p => resolved_time (snd p) = Some (fst p)) (sort_by_key k)).
  { eapply Permutation_Forall; [apply Permutation_sym, sort_by_key_perm|exact Hkeys]. }
  split; [exact Hcalls|]. split; [|split].
  - rewrite <- Hsnd. apply Permutation_map, sort_by_key_perm.
  - pose proof (sort_by_key_sorted k) as Hs.
    induction Hs as [|p ps Hps IH Hall]; simpl; constructor.
    + apply IH. now inversion Hkeys'.
    + inversion Hkeys' as [|? ? Hp Hrest]; subst.
      apply Forall_map. rewrite Forall_forall in *.
      intros q Hq. exists (fst p), (fst q).
      split; [exact Hp|]. split; [now apply Hrest|]. now apply Hall.
  - intros t.
    assert (Hfilter : forall ps,
               Forall (fun p => resolved_time (snd p) = Some (fst p)) ps ->
               filter (has_time t) (map snd ps) =
               map snd (filter (fun p => dt_eqb (fst p) t) ps)).
    { intros ps Hps. induction Hps as [|p ps Hp _ IH]; simpl; [reflexivity|].
      unfold has_time at 1. rewrite Hp.
      destruct (dt_eqb (fst p) t); simpl; now rewrite IH. }
    rewrite Hfilter by exact Hkeys'. rewrite sort_by_key_stable.
    rewrite <- Hfilter by exact Hkeys. now rewrite Hsnd.
Qed.

Lemma sorted_files_total (iterdir : list dir_entry) :
  forallb resolves (filter is_supported iterdir) = true ->
  exists l, sorted_files iterdir = Ok l.
Proof.
  intros H. unfold sorted_files. destruct (keyed_total _ H) as [k ->]. eauto.
Qed.

(** ** The loop of process_images *)

Lemma block_of_failure (e : dir_entry) : succeeds e = false -> block e = EmptyString.
Proof.
  unfold succeeds, block.
  destruct (get_image_creation_time e) as [[t src]|]; [|reflexivity].
  destruct (recognize e); [discriminate|reflexivity].
Qed.

Lemma blocks_of_failures (l : list dir_entry) :
  existsb succeeds l = false -> concat_all (map block l) = EmptyString.
Proof.
  induction l as [|x l IH]; simpl; [reflexivity|].
  intros H. apply orb_false_iff in H as [Hx Hl].
  now rewrite (block_of_failure _ Hx), IH.
Qed.


Lemma process_one_run (e : dir_entry) (s : state) :
  process_one e s =
    (Ok tt, mk_state (output_after (output_file s) [e])
                     (console s ++ [report_line e])
                     (resolve_calls s ++ [name e])%list).
Proof.
  unfold process_one, try_except, bind, call_get_image_creation_time, lift,
    open_append, write, print, output_after, report_line, block, succeeds.
  cbn -[String.append header].
  destruct (get_image_creation_time e) as [[t src]|msg]; [|reflexivity].
  destruct (recognize e) as [text|msg]; cbn -[String.append header]; [|reflexivity].
  now rewrite string_app_nil_r, !string_app_assoc.
Qed.

Lemma output_after_cons (f : option string) (x : dir_entry) (l : list dir_entry) :
  output_after (output_after f [x]) l = output_after f (x :: l).
Proof.
  unfold output_after. simpl. rewrite orb_false_r, string_app_nil_r.
  destruct (succeeds x) eqn:Hx; simpl.
  - destruct (existsb succeeds l) eqn:Hl.
    + now rewrite string_app_assoc.
    + now rewrite blocks_of_failures, string_app_nil_r.
  - now rewrite (block_of_failure _ Hx).
Qed.

Lemma for_each_process_one (l : list dir_entry) (s : state) :
  for_each l process_one s =
    (Ok tt, mk_state (output_after (output_file s) l)
                     (console s ++ map report_line l)
                     (resolve_calls s ++ map name l)%list).
Proof.
  revert s. induction l as [|x l IH]; intros s; simpl.
  - unfold ret, output_after. simpl. now rewrite !app_nil_r, state_eta.
  - unfold bind. rewrite process_one_run, IH. simpl.
    now rewrite output_after_cons, <- !app_assoc.
Qed.

(** The whole of [process_images], by what [get_image_files] gives. *)
Lemma process_images_run (folder_path : string) (iterdir : list dir_entry) (s : state) :
  process_images folder_path iterdir s =
    let calls := (resolve_calls s ++ keyed_calls (filter is_supported iterdir))%list in
    match sorted_files iterdir with
    | Raise msg => (Raise msg, mk_state (output_file s) (console s) calls)
    | Ok [] =>
        (Ok tt, mk_state (output_file s)
                         (console s ++ ["No supported image files found in " ++ folder_path])
                         calls)
    | Ok l =>
        (Ok tt, mk_state (output_after (output_file s) l)
                         (console s ++ map report_line l)
                         (calls ++ map name l)%list)
    end.
Proof.
  unfold process_images, bind. rewrite get_image_files_run.
  destruct (sorted_files iterdir) as [[|x l]|msg]; try reflexivity.
  now rewrite for_each_process_one.
Qed.

(** ** get_image_files and process_images *)

(** C5: [get_image_files] returns the candidates in ascending order of
    resolved timestamp, and candidates with equal timestamps stay in the
    order of the directory enumeration: for every instant, the entries
    resolved to it are the same sequence before and after the sort. *)
Theorem sort_is_ascending_and_stable (iterdir : list dir_entry) (s : state) :
  forallb resolves (filter is_supported iterdir) = true ->
  exists l,
    fst (get_image_files iterdir s) = Ok l /\
    Permutation l (filter is_supported iterdir) /\
    StronglySorted time_le l /\
    forall t, filter (has_time t) l = filter (has_time t) (filter is_supported iterdir).
Proof.
  intros Hres. destruct (sorted_files_total _ Hres) as [l Hl].
  exists l. rewrite get_image_files_run. simpl. split; [exact Hl|].
  apply sorted_files_ok in Hl. tauto.
Qed.

(** C7, as the code has it: the candidates are exactly the directory
    entries, regular files or not, whose [suffix], lower-cased, is one of
    .png, .jpg, .jpeg, .tiff, .bmp, each as often as the enumeration lists
    it; every other entry is left out. *)
Theorem candidates_are_entries_with_supported_suffix
        (iterdir : list dir_entry) (s : state) :
  forallb resolves (filter is_supported iterdir) = true ->
  exists l,
    fst (get_image_files iterdir s) = Ok l /\
    Permutation l (filter is_supported iterdir) /\
    forall e, In e l <->
              In e iterdir /\
              str_in (lower (suffix (name e))) [".png"; ".jpg"; ".jpeg"; ".tiff"; ".bmp"] = true.
Proof.
  intros Hres. destruct (sorted_files_total _ Hres) as [l Hl].
  exists l. rewrite get_image_files_run. simpl. split; [exact Hl|].
  apply sorted_files_ok in Hl. destruct Hl as (_ & Hperm & _).
  split; [exact Hperm|]. intros e.
  rewrite <- (filter_In is_supported e iterdir).
  split; intros H.
  - eapply Permutation_in; eassumption.
  - eapply Permutation_in; [apply Permutation_sym|]; eassumption.
Qed.



(** ** More on get_image_creation_time *)

(** A value the scan returns is the parse of a string held under a
    looked-for tag. *)
Lemma scan_tags_sound (exif : dict exif_value) (keys : list Z) (r : datetime * string) :
  scan_tags exif keys = Ok (Some r) ->
  exists k s t,
    r = (t, "EXIF") /\ In k keys /\ looked_for k = true /\
    dict_get exif k = Some (ExifStr s) /\ strptime s = Some t.
Proof.
  induction keys as [|k keys IH]; simpl; [discriminate|].
  destruct (tag_in (TAGS_get k) _) eqn:Hk.
  - destruct (dict_get exif k) as [[s|]|] eqn:Hget; try discriminate.
    destruct (strptime s) as [t|] eqn:Hparse.
    + intros [= <-]. exists k, s, t. auto.
    + intros H. destruct (IH H) as (k' & s' & t' & ? & ? & ?). exists k', s', t'. auto.
  - intros H. destruct (IH H) as (k' & s' & t' & ? & ? & ?). exists k', s', t'. auto.
Qed.

(** The scan looks at the looked-for keys only. *)
Lemma scan_tags_filter_keys (exif : dict exif_value) (keys : list Z) :
  scan_tags exif keys = scan_tags exif (filter looked_for keys).
Proof.
  induction keys as [|k keys IH]; [reflexivity|].
  simpl. unfold looked_for at 1.
  destruct (tag_in (TAGS_get k) _) eqn:Hk; [|exact IH].
  simpl. rewrite Hk, IH. reflexivity.
Qed.

(** The scan depends on the mapping through the values of the looked-for
    keys only. *)
Lemma scan_tags_ext (exif exif' : dict exif_value) (keys : list Z) :
  (forall k, looked_for k = true -> dict_get exif k = dict_get exif' k) ->
  scan_tags exif keys = scan_tags exif' keys.
Proof.
  intros Hsame. induction keys as [|k keys IH]; [reflexivity|].
  simpl. destruct (tag_in (TAGS_get k) _) eqn:Hk; [|exact IH].
  rewrite <- (Hsame k Hk), IH. reflexivity.
Qed.

Lemma dict_get_filter_keys {V : Type} (keep : Z -> bool) (d : dict V) (k : Z) :
  keep k = true ->
  dict_get (filter (fun kv => keep (fst kv)) d) k = dict_get d k.
Proof.
  intros Hk. induction d as [|[k' v] d IH]; [reflexivity|].
  simpl. destruct (keep k') eqn:Hk'; simpl.
  - now rewrite IH.
  - destruct (Z.eqb_spec k k') as [->|_]; [congruence|exact IH].
Qed.

Lemma dict_keys_filter {V : Type} (keep : Z -> bool) (d : dict V) :
  dict_keys (filter (fun kv => keep (fst kv)) d) = filter keep (dict_keys d).
Proof.
  induction d as [|[k v] d IH]; [reflexivity|].
  simpl. destruct (keep k); simpl; now rewrite IH.
Qed.

(** X1: an instant returned with source 'EXIF' is the parse of a string the
    metadata mapping holds under DateTimeOriginal or DateTime. *)
Theorem exif_time_comes_from_a_looked_for_tag (e : dir_entry) (t : datetime) :
  get_image_creation_time e = Ok (t, "EXIF") ->
  exists exif ocr k s,
    image e = Opened (GetexifDict exif) ocr /\
    In (k, ExifStr s) exif /\
    (k = DateTimeOriginal \/ k = DateTime) /\
    strptime s = Some t.
Proof.
  unfold get_image_creation_time.
  destruct (read_exif_time e) as [[r|]|msg] eqn:Hread.
  - intros [= ->]. unfold read_exif_time in Hread.
    destruct (image e) as [msg|[| |exif] ocr]; try discriminate.
    destruct exif as [|kv exif]; [discriminate|].
    apply scan_tags_sound in Hread as (k & s & t' & [= <-] & _ & Hk & Hget & Hparse).
    exists (kv :: exif), ocr, k, s.
    split; [reflexivity|]. split; [now apply dict_get_in|].
    split; [now apply looked_for_iff|assumption].
  - destruct (st_mtime e); discriminate.
  - destruct (st_mtime e); discriminate.
Qed.

(** A looked-for key with a value that is not a string stops the scan with
    an exception, when no key before it makes the scan return. *)
Lemma scan_tags_raises_at (exif : dict exif_value) (keys1 keys2 : list Z) (k : Z) :
  Forall (fun k' => forall v, dict_get exif k' = Some v -> parsable_item (k', v) = false)
         keys1 ->
  looked_for k = true ->
  dict_get exif k = Some ExifOther ->
  forall r, scan_tags exif (keys1 ++ k :: keys2) <> Ok (Some r).
Proof.
  intros Hbefore Hk Hget r.
  induction Hbefore as [|k' keys1 Hk' _ IH]; simpl.
  - unfold looked_for in Hk. rewrite Hk, Hget. discriminate.
  - destruct (tag_in (TAGS_get k') _) eqn:Hlk; [|exact IH].
    destruct (dict_get exif k') as [[s|]|] eqn:Hget'; try discriminate.
    specialize (Hk' _ eq_refl). unfold parsable_item, looked_for in Hk'. simpl in Hk'.
    rewrite Hlk in Hk'. destruct (strptime s); [discriminate|exact IH].
Qed.

(** X2: a value that is not a string under a looked-for tag ends the scan:
    when no item before it gives a capture time, the result is the fallback,
    the modification time or the exception of [stat], whatever the items
    after it hold. *)
Theorem non_string_value_ends_scan
        (e : dir_entry) (ocr : result string) (before after : dict exif_value) (k : Z) :
  image e = Opened (GetexifDict (before ++ (k, ExifOther) :: after)%list) ocr ->
  NoDup (dict_keys (before ++ (k, ExifOther) :: after)%list) ->
  looked_for k = true ->
  forallb (fun kv => negb (parsable_item kv)) before = true ->
  get_image_creation_time e =
    match st_mtime e with
    | Ok m => Ok (m, "mtime")
    | Raise msg => Raise msg
    end.
Proof.
  intros Himg Hnd Hk Hbefore.
  set (exif := (before ++ (k, ExifOther) :: after)%list) in *.
  apply fallback_to_mtime. intros r.
  assert (Hin : In (k, ExifOther) exif) by (apply in_or_app; right; now left).
  rewrite (read_exif_time_dict _ _ _ _ _ Himg Hin).
  assert (Hkeys : dict_keys exif = (dict_keys before ++ k :: dict_keys after)%list).
  { unfold exif, dict_keys. now rewrite map_app. }
  rewrite Hkeys.
  apply scan_tags_raises_at; [|assumption|now apply dict_get_nodup].
  apply Forall_forall. intros k' Hk' v Hget.
  unfold dict_keys in Hk'. apply in_map_iff in Hk' as ([k'' v'] & Heq & Hin').
  simpl in Heq. subst k''.
  assert (Hv : dict_get exif k' = Some v').
  { apply dict_get_nodup; [assumption|]. apply in_or_app. now left. }
  rewrite Hv in Hget. injection Hget as <-.
  rewrite forallb_forall in Hbefore. specialize (Hbefore _ Hin').
  now apply negb_true_iff in Hbefore.
Qed.

(** X3: an instant returned with source 'EXIF' depends on the image alone:
    the name of the entry and what [stat] does on it, failure included, play
    no part. *)
Theorem exif_time_needs_no_stat (e1 e2 : dir_entry) (t : datetime) :
  image e1 = image e2 ->
  get_image_creation_time e1 = Ok (t, "EXIF") ->
  get_image_creation_time e2 = Ok (t, "EXIF").
Proof.
  intros Himg. unfold get_image_creation_time.
  assert (Hread : read_exif_time e1 = read_exif_time e2).
  { unfold read_exif_time. now rewrite Himg. }
  rewrite <- Hread.
  destruct (read_exif_time e1) as [[r|]|msg]; [auto| |];
    destruct (st_mtime e1); discriminate.
Qed.

(** X4: the items under other tags do not matter: the result on an image is
    the result on the image with the items of DateTimeOriginal and DateTime
    alone. *)
Theorem other_tags_do_not_matter
        (e : dir_entry) (exif : dict exif_value) (ocr : result string) :
  image e = Opened (GetexifDict exif) ocr ->
  get_image_creation_time e =
  get_image_creation_time
    (mk_entry (name e) (kind e) (st_mtime e)
       (Opened (GetexifDict (filter (fun kv => looked_for (fst kv)) exif)) ocr)).
Proof.
  intros Himg. unfold get_image_creation_time, read_exif_time. rewrite Himg. simpl.
  assert (Hscan : scan_tags exif (dict_keys exif) =
                  scan_tags (filter (fun kv => looked_for (fst kv)) exif)
                            (dict_keys (filter (fun kv => looked_for (fst kv)) exif))).
  { rewrite dict_keys_filter, (scan_tags_filter_keys exif).
    apply scan_tags_ext. intros k Hk. symmetry. now apply dict_get_filter_keys. }
  destruct exif as [|kv exif]; [reflexivity|].
  rewrite Hscan.
  destruct (filter _ (kv :: exif)); reflexivity.
Qed.

(** ** More on the extension filter *)

Lemma list_ascii_of_string_app (a b : string) :
  list_ascii_of_string (a ++ b) = (list_ascii_of_string a ++ list_ascii_of_string b)%list.
Proof. induction a as [|c a IH]; simpl; [reflexivity|]. now rewrite IH. Qed.

Lemma string_of_list_ascii_app (a b : list ascii) :
  string_of_list_ascii (a ++ b)%list = string_of_list_ascii a ++ string_of_list_ascii b.
Proof. induction a as [|c a IH]; simpl; [reflexivity|]. now rewrite IH. Qed.

Lemma list_ascii_of_lower (s : string) :
  list_ascii_of_string (lower s) = map lower_char (list_ascii_of_string s).
Proof. induction s as [|c s IH]; simpl; [reflexivity|]. now rewrite IH. Qed.

Lemma string_of_list_ascii_lower (cs : list ascii) :
  string_of_list_ascii (map lower_char cs) = lower (string_of_list_ascii cs).
Proof. induction cs as [|c cs IH]; simpl; [reflexivity|]. now rewrite IH. Qed.

(** Lower-casing neither makes nor removes a dot. *)
Lemma lower_char_dot (c : ascii) :
  Ascii.eqb (lower_char c) "."%char = Ascii.eqb c "."%char.
Proof. destruct c as [[] [] [] [] [] [] [] []]; reflexivity. Qed.

Lemma lower_char_idem (c : ascii) : lower_char (lower_char c) = lower_char c.
Proof. destruct c as [[] [] [] [] [] [] [] []]; reflexivity. Qed.

Lemma lower_idem (s : string) : lower (lower s) = lower s.
Proof. induction s as [|c s IH]; simpl; [reflexivity|]. now rewrite lower_char_idem, IH. Qed.

Lemma rfind_lower (cs : list ascii) :
  rfind "."%char (map lower_char cs) = rfind "."%char cs.
Proof.
  induction cs as [|c cs IH]; simpl; [reflexivity|].
  now rewrite IH, lower_char_dot.
Qed.

Lemma rfind_none (c : ascii) (cs : list ascii) :
  ~ In c cs -> rfind c cs = None.
Proof.
  induction cs as [|x cs IH]; simpl; [reflexivity|].
  intros H. rewrite IH by tauto.
  destruct (Ascii.eqb_spec x c) as [->|_]; [|reflexivity]. exfalso. tauto.
Qed.

(** The last occurrence is where nothing of the kind follows. *)
Lemma rfind_last (c : ascii) (cs1 cs2 : list ascii) :
  ~ In c cs2 -> rfind c (cs1 ++ c :: cs2) = Some (List.length cs1).
Proof.
  intros H. induction cs1 as [|x cs1 IH]; simpl.
  - now rewrite (rfind_none _ _ H), Ascii.eqb_refl.
  - now rewrite IH.
Qed.

Lemma rfind_some (c : ascii) (cs : list ascii) (i : nat) :
  rfind c cs = Some i -> (i < List.length cs)%nat.
Proof.
  revert i. induction cs as [|x cs IH]; simpl; [discriminate|].
  intros i. destruct (rfind c cs) as [j|].
  - intros [= <-]. specialize (IH j eq_refl). lia.
  - destruct (Ascii.eqb x c); [|discriminate]. intros [= <-]. lia.
Qed.

(** [Path.suffix] commutes with [str.lower]. *)
Lemma suffix_lower (file_name : string) : suffix (lower file_name) = lower (suffix file_name).
Proof.
  unfold suffix. rewrite list_ascii_of_lower, rfind_lower, length_map.
  destruct (rfind "."%char (list_ascii_of_string file_name)) as [i|]; [|reflexivity].
  destruct ((0 <? i)%nat && (i <? List.length (list_ascii_of_string file_name) - 1)%nat);
    [|reflexivity].
  now rewrite skipn_map, string_of_list_ascii_lower.
Qed.

(** The suffix of a name made of a stem, a dot and a dot-free extension. *)
Lemma suffix_of_stem_dot_ext (stem ext : string) :
  stem <> EmptyString ->
  ext <> EmptyString ->
  ~ In "."%char (list_ascii_of_string ext) ->
  suffix (stem ++ String "."%char ext) = String "."%char ext.
Proof.
  intros Hstem Hext Hdot. unfold suffix.
  rewrite list_ascii_of_string_app. simpl list_ascii_of_string.
  rewrite (rfind_last _ _ _ Hdot).
  assert (H1 : (0 < List.length (list_ascii_of_string stem))%nat).
  { destruct stem; [contradiction|simpl; lia]. }
  assert (H2 : (0 < List.length (list_ascii_of_string ext))%nat).
  { destruct ext; [contradiction|simpl; lia]. }
  rewrite length_app. simpl List.length.
  destruct (Nat.ltb_spec 0 (List.length (list_ascii_of_string stem))); [|lia].
  destruct (Nat.ltb_spec (List.length (list_ascii_of_string stem))
              (List.length (list_ascii_of_string stem)
               + S (List.length (list_ascii_of_string ext)) - 1)); [|lia].
  simpl andb. cbv iota.
  rewrite skipn_app, skipn_all, Nat.sub_diag. simpl.
  now rewrite string_of_list_ascii_of_string.
Qed.

(** An extension of the allow-list, in any letter case, is a dot followed by
    letters. *)
Lemma supported_extension_shape (ext : string) :
  str_in (lower ext) supported_formats = true ->
  exists rest, ext = String "."%char rest /\ rest <> EmptyString /\
               ~ In "."%char (list_ascii_of_string rest).
Proof.
  assert (Hdot : forall c x, lower_char c = x -> Ascii.eqb x "."%char = false ->
                             c <> "."%char).
  { intros c x <- Hx ->. discriminate. }
  assert (Hfirst : forall c, lower_char c = "."%char -> c = "."%char).
  { intros c H. apply Ascii.eqb_eq. rewrite <- lower_char_dot, H. reflexivity. }
  unfold str_in, supported_formats. simpl existsb.
  intros H. repeat (apply orb_true_iff in H as [H|H]); try discriminate;
    apply String.eqb_eq in H;
    repeat (destruct ext as [|? ext]; simpl in H; try discriminate);
    injection H; intros;
    repeat match goal with
           | E : lower_char ?c = "."%char |- _ => apply Hfirst in E; subst c
           end;
    eexists; (split; [reflexivity|]); (split; [discriminate|]);
    simpl; intros Hin;
    repeat match goal with
           | D : _ \/ _ |- _ => destruct D as [D|D]
           | D : False |- _ => contradiction
           | D : ?c = "."%char, E : lower_char ?c = _ |- _ =>
               revert D; eapply Hdot; [exact E|reflexivity]
           end.
Qed.

(** X5: the filter does not see letter case anywhere in the name: two
    entries whose names are equal up to case are both candidates or both
    left out. *)
Theorem is_supported_ignores_case (e1 e2 : dir_entry) :
  lower (name e1) = lower (name e2) ->
  is_supported e1 = is_supported e2.
Proof.
  intros H. unfold is_supported. now rewrite <- !suffix_lower, H.
Qed.

(** X6: the candidates are the names made of a non-empty stem followed by
    one of the five extensions in any letter case; a name that is an
    extension alone, as the hidden file [.png], is not one. *)
Theorem is_supported_iff_stem_and_extension (e : dir_entry) :
  is_supported e = true <->
  exists stem ext,
    name e = stem ++ ext /\ stem <> EmptyString /\
    str_in (lower ext) supported_formats = true.
Proof.
  unfold is_supported. split.
  - intros H. unfold suffix in *.
    set (cs := list_ascii_of_string (name e)) in *.
    destruct (rfind "."%char cs) as [i|] eqn:Hr; [|discriminate].
    destruct (Nat.ltb_spec 0 i) as [Hi|]; [|discriminate].
    destruct ((i <? List.length cs - 1)%nat); [|discriminate]. simpl andb in H.
    cbv iota in H.
    exists (string_of_list_ascii (firstn i cs)), (string_of_list_ascii (skipn i cs)).
    split; [|split; [|exact H]].
    + rewrite <- string_of_list_ascii_app, firstn_skipn. unfold cs.
      now rewrite string_of_list_ascii_of_string.
    + apply rfind_some in Hr.
      destruct cs as [|c cs']; [simpl in Hr; lia|].
      destruct i; [lia|]. discriminate.
  - intros (stem & ext & Hname & Hstem & Hext).
    destruct (supported_extension_shape _ Hext) as (rest & -> & Hrest & Hdot).
    rewrite Hname, suffix_of_stem_dot_ext; assumption.
Qed.

(** ** More on get_image_files and process_images *)

Lemma keyed_raises (l1 l2 : list dir_entry) (x : dir_entry) (msg : string) :
  forallb resolves l1 = true ->
  get_image_creation_time x = Raise msg ->
  keyed (l1 ++ x :: l2) = Raise msg /\
  keyed_calls (l1 ++ x :: l2) = (map name l1 ++ [name x])%list.
Proof.
  intros Hres Hx. induction l1 as [|y l1 IH]; simpl.
  - now rewrite Hx.
  - simpl in Hres. apply andb_true_iff in Hres as [Hy Hres]. unfold resolves in Hy.
    destruct (get_image_creation_time y); [|discriminate].
    destruct (IH Hres) as [-> ->]. auto.
Qed.

Lemma keyed_resolves (l : list dir_entry) (k : list (datetime * dir_entry)) :
  keyed l = Ok k -> forallb resolves l = true.
Proof.
  revert k. induction l as [|x l IH]; intros k; simpl; [reflexivity|].
  unfold resolves at 1. destruct (get_image_creation_time x); [|discriminate].
  destruct (keyed l) as [ys|]; [|discriminate]. intros _. now rewrite (IH ys).
Qed.

(** The keyed list is the list of the entries, each with its instant. *)
Lemma keyed_shape (l : list dir_entry) (k : list (datetime * dir_entry)) :
  keyed l = Ok k ->
  k = map (fun e => (match resolved_time e with
                     | Some t => t
                     | None => mk_datetime 0 0 0 0 0 0 0
                     end, e)) l.
Proof.
  revert k. induction l as [|x l IH]; intros k; simpl.
  - now intros [= <-].
  - unfold resolved_time at 1. destruct (get_image_creation_time x); [|discriminate].
    destruct (keyed l) as [ys|]; [|discriminate].
    intros [= <-]. now rewrite <- (IH ys).
Qed.

Lemma perm_filter {A : Type} (f : A -> bool) (l1 l2 : list A) :
  Permutation l1 l2 -> Permutation (filter f l1) (filter f l2).
Proof.
  induction 1 as [|x l1 l2 _ IH|x y l|l1 l2 l3 _ IH1 _ IH2]; simpl.
  - constructor.
  - destruct (f x); [now constructor|assumption].
  - destruct (f x), (f y); try reflexivity. apply perm_swap.
  - now transitivity (filter f l2).
Qed.

Lemma perm_forallb {A : Type} (f : A -> bool) (l1 l2 : list A) :
  Permutation l1 l2 -> forallb f l1 = true -> forallb f l2 = true.
Proof.
  intros Hp H. rewrite forallb_forall in *. intros x Hx. apply H.
  eapply Permutation_in; [apply Permutation_sym|]; eassumption.
Qed.

Lemma perm_existsb {A : Type} (f : A -> bool) (l1 l2 : list A) :
  Permutation l1 l2 -> existsb f l1 = existsb f l2.
Proof.
  intros Hp. destruct (existsb f l1) eqn:E1; symmetry.
  - apply existsb_exists in E1 as (x & Hx & Hf). apply existsb_exists.
    exists x. split; [eapply Permutation_in; eassumption|assumption].
  - destruct (existsb f l2) eqn:E2; [|reflexivity].
    apply existsb_exists in E2 as (x & Hx & Hf).
    assert (existsb f l1 = true); [|congruence].
    apply existsb_exists. exists x.
    split; [eapply Permutation_in; [apply Permutation_sym|]; eassumption|assumption].
Qed.

(** With distinct keys, at most one pair has a given key. *)
Lemma filter_key_absent {A : Type} (t : datetime) (l : list (datetime * A)) :
  ~ In t (map fst l) -> filter (fun p => dt_eqb (fst p) t) l = [].
Proof.
  induction l as [|p l IH]; simpl; [reflexivity|].
  intros H. destruct (dt_eqb (fst p) t) eqn:E.
  - apply dt_eqb_eq in E. tauto.
  - apply IH. tauto.
Qed.

Lemma filter_key_short {A : Type} (t : datetime) (l : list (datetime * A)) :
  NoDup (map fst l) -> (List.length (filter (fun p => dt_eqb (fst p) t) l) <= 1)%nat.
Proof.
  induction l as [|p l IH]; simpl; [lia|].
  intros Hnd. apply NoDup_cons_iff in Hnd as [Hnotin Hnd].
  destruct (dt_eqb (fst p) t) eqn:E; [|auto].
  apply dt_eqb_eq in E. subst t. rewrite filter_key_absent by assumption. simpl. lia.
Qed.

(** With distinct keys, the sort does not depend on the order of its input. *)
Lemma sort_by_key_perm_invariant {A : Type} (l1 l2 : list (datetime * A)) :
  NoDup (map fst l1) -> Permutation l1 l2 -> sort_by_key l1 = sort_by_key l2.
Proof.
  intros Hnd Hp. apply stable_sorted_unique; try apply sort_by_key_sorted.
  intros t. rewrite !sort_by_key_stable.
  pose proof (filter_key_short t l1 Hnd) as Hlen.
  pose proof (perm_filter (fun p => dt_eqb (fst p) t) _ _ Hp) as Hpf.
  destruct (filter (fun p => dt_eqb (fst p) t) l1) as [|a [|b rest]].
  - apply Permutation_nil in Hpf. now rewrite Hpf.
  - apply Permutation_length_1_inv in Hpf. now rewrite Hpf.
  - simpl in Hlen. lia.
Qed.

(** A sorted list is left as it is. *)
Lemma sort_by_key_sorted_id {A : Type} (l : list (datetime * A)) :
  StronglySorted key_le l -> sort_by_key l = l.
Proof.
  intros H. symmetry. now apply sort_by_key_unique.
Qed.

Lemma keyed_calls_prefix (l : list dir_entry) :
  exists rest, map name l = (keyed_calls l ++ rest)%list.
Proof.
  induction l as [|x l [rest IH]]; simpl; [now exists []|].
  destruct (get_image_creation_time x).
  - exists rest. simpl. now rewrite IH.
  - exists (map name l). reflexivity.
Qed.

Lemma filter_all {A : Type} (f : A -> bool) (l : list A) :
  (forall x, In x l -> f x = true) -> filter f l = l.
Proof.
  induction l as [|x l IH]; simpl; [reflexivity|].
  intros H. rewrite (H x (or_introl eq_refl)), IH; auto.
Qed.

Lemma keyed_of_snd (k : list (datetime * dir_entry)) :
  Forall (fun p => resolved_time (snd p) = Some (fst p)) k ->
  keyed (map snd k) = Ok k.
Proof.
  induction 1 as [|[t e] k Hp _ IH]; simpl; [reflexivity|].
  simpl in Hp. unfold resolved_time in Hp.
  destruct (get_image_creation_time e) as [r|]; [|discriminate].
  rewrite IH. now injection Hp as ->.
Qed.

(** X7: when [get_image_creation_time] raises on a candidate, the candidates
    before it resolving, [get_image_files] raises that exception, and with it
    [process_images]: the resolver has been called on the candidates up to
    that one, nothing has been printed and the output file is as it was. *)
Theorem unresolvable_candidate_aborts
        (folder_path : string) (iterdir l1 l2 : list dir_entry) (x : dir_entry)
        (msg : string) (s : state) :
  filter is_supported iterdir = (l1 ++ x :: l2)%list ->
  forallb resolves l1 = true ->
  get_image_creation_time x = Raise msg ->
  get_image_files iterdir s =
    (Raise msg, mk_state (output_file s) (console s)
                         (resolve_calls s ++ map name l1 ++ [name x])%list) /\
  process_images folder_path iterdir s =
    (Raise msg, mk_state (output_file s) (console s)
                         (resolve_calls s ++ map name l1 ++ [name x])%list).
Proof.
  intros Hc Hres Hx. destruct (keyed_raises l1 l2 x msg Hres Hx) as [Hk Hcalls].
  rewrite process_images_run, get_image_files_run. unfold sorted_files.
  rewrite Hc, Hk, Hcalls. split; reflexivity.
Qed.

(** X8: [get_image_files] neither prints nor touches the output file,
    whether it returns or raises, and it calls the resolver on candidates
    only, in the order of the enumeration. *)
Theorem get_image_files_only_resolves (iterdir : list dir_entry) (s : state) :
  output_file (snd (get_image_files iterdir s)) = output_file s /\
  console (snd (get_image_files iterdir s)) = console s /\
  exists called rest,
    resolve_calls (snd (get_image_files iterdir s)) = (resolve_calls s ++ called)%list /\
    map name (filter is_supported iterdir) = (called ++ rest)%list.
Proof.
  rewrite get_image_files_run. simpl. repeat split.
  destruct (keyed_calls_prefix (filter is_supported iterdir)) as [rest Hrest].
  exists (keyed_calls (filter is_supported iterdir)), rest. auto.
Qed.

(** X10: when the candidates resolve to distinct instants, the order in which
    the directory lists its entries does not matter: two listings of the
    same entries give the same sorted list, the same output and the same
    console lines. *)
Theorem listing_order_is_irrelevant
        (folder_path : string) (dir1 dir2 : list dir_entry) (s : state) :
  Permutation dir1 dir2 ->
  forallb resolves (filter is_supported dir1) = true ->
  NoDup (map resolved_time (filter is_supported dir1)) ->
  exists l,
    fst (get_image_files dir1 s) = Ok l /\
    fst (get_image_files dir2 s) = Ok l /\
    output_file (snd (process_images folder_path dir1 s)) =
      output_file (snd (process_images folder_path dir2 s)) /\
    console (snd (process_images folder_path dir1 s)) =
      console (snd (process_images folder_path dir2 s)).
Proof.
  intros Hp Hres Hnd.
  pose proof (perm_filter is_supported _ _ Hp) as Hpc.
  pose proof (perm_forallb resolves _ _ Hpc Hres) as Hres2.
  destruct (keyed_total _ Hres) as [k1 Hk1]. destruct (keyed_total _ Hres2) as [k2 Hk2].
  assert (Hpk : Permutation k1 k2).
  { rewrite (keyed_shape _ _ Hk1), (keyed_shape _ _ Hk2). now apply Permutation_map. }
  assert (Hndk : NoDup (map fst k1)).
  { destruct (keyed_ok _ _ Hk1) as (_ & Hsnd & Hkeys).
    apply (NoDup_map_inv Some). rewrite <- Hsnd in Hnd.
    rewrite !map_map in *.
    erewrite map_ext_in; [exact Hnd|].
    intros p Hin. rewrite Forall_forall in Hkeys. symmetry. now apply Hkeys. }
  assert (Hsame : sorted_files dir1 = sorted_files dir2).
  { unfold sorted_files. rewrite Hk1, Hk2.
    now rewrite (sort_by_key_perm_invariant _ _ Hndk Hpk). }
  exists (map snd (sort_by_key k1)).
  rewrite !get_image_files_run, !process_images_run, <- Hsame.
  unfold sorted_files. rewrite Hk1. cbv zeta. simpl fst.
  repeat split; destruct (map snd (sort_by_key k1)); reflexivity.
Qed.

(** X11: [get_image_files] leaves its own result as it is: on a folder that
    lists the entries it returned, in that order, it returns them again. *)
Theorem get_image_files_fixed_point (iterdir l : list dir_entry) (s s2 : state) :
  fst (get_image_files iterdir s) = Ok l ->
  fst (get_image_files l s2) = Ok l.
Proof.
  rewrite !get_image_files_run. simpl. intros Hl.
  pose proof (sorted_files_ok _ _ Hl) as (_ & Hperm & _).
  unfold sorted_files in *.
  destruct (keyed (filter is_supported iterdir)) as [k|] eqn:Hk; [|discriminate].
  injection Hl as <-.
  rewrite filter_all.
  2:{ intros x Hx. eapply Permutation_in in Hx; [|exact Hperm].
      now apply filter_In in Hx. }
  destruct (keyed_ok _ _ Hk) as (_ & _ & Hkeys).
  rewrite keyed_of_snd.
  - now rewrite sort_by_key_sorted_id by apply sort_by_key_sorted.
  - eapply Permutation_Forall; [apply Permutation_sym, sort_by_key_perm|exact Hkeys].
Qed.

(** ** The loop on a platform *)

Ltac run_turn :=
  unfold process_one_io, try_except, bind, call_get_image_creation_time, lift,
    open_append_io, write_io, print_io, open_append, write, print;
  cbn -[String.append header].


(** A turn that does not get past decoding and recognition leaves the file
    as it is. *)
Lemma process_one_io_unrecognized (e : dir_entry) (s : state) (msg : string) :
  recognize e = Raise msg ->
  output_file (snd (process_one_io e s)) = output_file s.
Proof.
  intros Hrec. run_turn. rewrite Hrec.
  destruct (get_image_creation_time e) as [[t src]|msg']; cbn -[String.append header];
    destruct (stdout_accepts io _); reflexivity.
Qed.



Lemma for_each_io_unrecognized (l : list dir_entry) (s : state) :
  (forall e, In e l -> exists msg, recognize e = Raise msg) ->
  output_file (snd (for_each l process_one_io s)) = output_file s.
Proof.
  revert s. induction l as [|x l IH]; intros s Hall; [reflexivity|].
  simpl. unfold bind.
  destruct (Hall x (or_introl eq_refl)) as [msg Hx].
  pose proof (process_one_io_unrecognized x s msg Hx) as Hout.
  destruct (process_one_io x s) as [[u|msg'] s1]; simpl in Hout; [|exact Hout].
  rewrite IH; [exact Hout|]. intros e He. apply Hall. now right.
Qed.


(** X9: when decoding or recognition fails on every candidate,
    [process_images] leaves the output file as it was, missing if it was
    missing: [open(output_file, 'a')] is not reached, whether the sort
    raises, the error lines are printed or the console refuses one. *)
Theorem output_file_untouched_without_recognition
        (folder_path : string) (iterdir : list dir_entry) (s : state) :
  (forall e, In e (filter is_supported iterdir) -> exists msg, recognize e = Raise msg) ->
  output_file (snd (process_images_io folder_path iterdir s)) = output_file s.
Proof.
  intros Hall. unfold process_images_io, bind. rewrite get_image_files_run.
  destruct (sorted_files iterdir) as [l|msg] eqn:Hl; [|reflexivity].
  pose proof (sorted_files_ok _ _ Hl) as (_ & Hperm & _).
  destruct l as [|x l].
  - unfold print_io, print. destruct (stdout_accepts io _); reflexivity.
  - rewrite for_each_io_unrecognized; [reflexivity|].
    intros e He. apply Hall. eapply Permutation_in; eassumption.
Qed.

End Clio.

(** ** Runs on the sample directory *)

(** C1 fails on the code: [camera_jpg] holds both tags with parsable
    values, and the instant returned is that of the generic DateTime, which
    the mapping lists first, not that of DateTimeOriginal. *)
Lemma capture_tag_not_preferred :
  In (DateTimeOriginal, ExifStr "2021:05:01 10:00:00") camera_exif /\
  In (DateTime, ExifStr "2023:01:01 12:00:00") camera_exif /\
  strptime_exif "2021:05:01 10:00:00" = Some t_capture /\
  strptime_exif "2023:01:01 12:00:00" = Some t_generic /\
  get_image_creation_time strptime_exif camera_jpg = Ok (t_generic, "EXIF") /\
  get_image_creation_time strptime_exif camera_jpg <> Ok (t_capture, "EXIF").
Proof.
  repeat split; try reflexivity; simpl; try tauto.
  vm_compute. discriminate.
Qed.

Lemma both_tags_first_in_iteration_order_wins_witness :
  get_image_creation_time strptime_exif camera_jpg = Ok (t_generic, "EXIF") /\
  get_image_creation_time strptime_exif edited_jpg = Ok (t_capture, "EXIF").
Proof.
  split.
  - apply (both_tags_first_in_iteration_order_wins strptime_exif camera_jpg camera_exif
             (Ok "holiday") "2021:05:01 10:00:00" "2023:01:01 12:00:00"
             t_capture t_generic);
      [reflexivity | nodup_keys | simpl; tauto | simpl; tauto | reflexivity | reflexivity].
  - apply (both_tags_first_in_iteration_order_wins strptime_exif edited_jpg
             [(36867, ExifStr "2021:05:01 10:00:00"); (306, ExifStr "2023:01:01 12:00:00")]
             (Ok "edited") "2021:05:01 10:00:00" "2023:01:01 12:00:00"
             t_capture t_generic);
      [reflexivity | nodup_keys | simpl; tauto | simpl; tauto | reflexivity | reflexivity].
Defined.



Lemma malformed_tag_does_not_end_scan_witness :
  get_image_creation_time strptime_exif dashes_jpg = Ok (t_capture, "EXIF").
Proof.
  apply (malformed_tag_does_not_end_scan strptime_exif dashes_jpg (Ok "dashes")
           [] [] [] 306 36867 "2023-01-01 12:00:00" "2021:05:01 10:00:00" t_capture);
    [reflexivity | nodup_keys | reflexivity | reflexivity | reflexivity | reflexivity].
Defined.

Lemma sort_is_ascending_and_stable_witness :
  exists l,
    fst (get_image_files strptime_exif images_dir empty_state) = Ok l /\
    Permutation l (filter is_supported images_dir) /\
    StronglySorted (time_le strptime_exif) l /\
    forall t, filter (has_time strptime_exif t) l =
              filter (has_time strptime_exif t) (filter is_supported images_dir).
Proof.
  apply (sort_is_ascending_and_stable strptime_exif images_dir empty_state). reflexivity.
Defined.

(** C7 fails on the code: the sub-directory [scans.png] is a candidate. *)
Lemma directory_with_image_suffix_is_selected :
  fst (get_image_files strptime_exif folder_with_dirs empty_state) =
    Ok [scans_png_dir; a_png; c_JPG] /\
  In scans_png_dir folder_with_dirs /\
  kind scans_png_dir = Directory.
Proof.
  split; [reflexivity|]. split; [simpl; tauto|reflexivity].
Qed.

Lemma candidates_are_entries_with_supported_suffix_witness :
  exists l,
    fst (get_image_files strptime_exif folder_with_dirs empty_state) = Ok l /\
    Permutation l (filter is_supported folder_with_dirs) /\
    forall e, In e l <->
              In e folder_with_dirs /\
              str_in (lower (suffix (name e))) [".png"; ".jpg"; ".jpeg"; ".tiff"; ".bmp"] = true.
Proof.
  apply (candidates_are_entries_with_supported_suffix strptime_exif folder_with_dirs
           empty_state).
  reflexivity.
Defined.


(** The run on the three images: two blocks, in time order, and one error
    line, for the second image. *)
Example three_images_run :
  main strptime_exif three_images old_state =
    (Ok tt,
     mk_state
       (Some ("old text"
              ++ newline ++ "--- Text from a.png (mtime time: 2024-03-02 12:00:00) ---"
              ++ newline ++ "page a" ++ newline
              ++ newline ++ "--- Text from z.tiff (mtime time: 2024-03-04 12:00:00) ---"
              ++ newline ++ "page z" ++ newline))
       ["Processed: a.png (using mtime timestamp)";
        "Error processing broken.bmp: cannot identify image file";
        "Processed: z.tiff (using mtime timestamp)"]
       ["a.png"; "broken.bmp"; "z.tiff"; "a.png"; "broken.bmp"; "z.tiff"]).
Proof. reflexivity. Qed.


(** The model of [strptime] on well-formed and malformed values. *)
Example strptime_exif_examples :
  strptime_exif "2021:05:01 10:00:00" = Some t_capture /\
  strptime_exif "2021:5: 1  10:0:0" = Some t_capture /\
  strptime_exif "2023-01-01 12:00:00" = None /\
  strptime_exif "2023:02:29 12:00:00" = None /\
  strptime_exif "2023:01:01 12:00:60" = None /\
  strptime_exif "2023:01:01 12:00:00 " = None /\
  strptime_exif "0000:00:00 00:00:00" = None.
Proof. repeat split. Qed.

(** [Path.suffix] and the allow-list on names. *)
Example suffix_examples :
  map suffix ["a.png"; "c.JPG"; ".png"; "a.png."; "a.tar.gz"; "d"] =
    [".png"; ".JPG"; EmptyString; EmptyString; ".gz"; EmptyString] /\
  map is_supported [a_png; b_txt; c_JPG; d_dir; scans_png_dir] =
    [true; false; true; false; true].
Proof. split; reflexivity. Qed.

(** A value that is not a string under a looked-for tag ends the scan by the
    outer handler: the result is the modification time, whatever follows. *)
Example non_string_value_falls_back :
  get_image_creation_time strptime_exif
    (mk_entry "odd.jpg" RegularFile (Ok (at_noon 5))
       (Opened (GetexifDict [(306, ExifOther); (36867, ExifStr "2021:05:01 10:00:00")])
               (Ok "odd")))
  = Ok (at_noon 5, "mtime").
Proof. reflexivity. Qed.

(** The order of the candidates of [images_dir]: the camera picture by its
    EXIF time, then the files by modification time, [a.png] and [c.JPG],
    which have the same one, as the directory lists them. *)
Example images_dir_order :
  fst (get_image_files strptime_exif images_dir empty_state) =
    Ok [camera_jpg; a_png; c_JPG; broken_bmp; z_tiff].
Proof. reflexivity. Qed.

(** On a candidate on which [stat] fails the exception leaves [sorted], and
    with it [process_images], before any entry is processed. *)
Example unresolvable_candidate_ends_run :
  process_images strptime_exif "images" [a_png; dangling_png] old_state =
    (Raise "No such file or directory",
     mk_state (Some "old text") [] ["a.png"; "dangling.png"]).
Proof. reflexivity. Qed.

(** ** Further runs on the sample directory *)

Lemma exif_time_comes_from_a_looked_for_tag_witness :
  exists exif ocr k s,
    image camera_jpg = Opened (GetexifDict exif) ocr /\
    In (k, ExifStr s) exif /\
    (k = DateTimeOriginal \/ k = DateTime) /\
    strptime_exif s = Some t_generic.
Proof.
  apply (exif_time_comes_from_a_looked_for_tag strptime_exif camera_jpg t_generic).
  reflexivity.
Defined.

Lemma non_string_value_ends_scan_witness :
  get_image_creation_time strptime_exif odd_jpg = Ok (at_noon 5, "mtime").
Proof.
  apply (non_string_value_ends_scan strptime_exif odd_jpg (Ok "odd")
           [(271, ExifStr "Canon")] [(36867, ExifStr "2021:05:01 10:00:00")] 306);
    [reflexivity | nodup_keys | reflexivity | reflexivity].
Defined.

Lemma exif_time_needs_no_stat_witness :
  get_image_creation_time strptime_exif moved_jpg = Ok (t_generic, "EXIF").
Proof.
  apply (exif_time_needs_no_stat strptime_exif camera_jpg moved_jpg t_generic);
    reflexivity.
Defined.

Lemma other_tags_do_not_matter_witness :
  get_image_creation_time strptime_exif camera_jpg =
  get_image_creation_time strptime_exif
    (mk_entry (name camera_jpg) (kind camera_jpg) (st_mtime camera_jpg)
       (Opened (GetexifDict (filter (fun kv => looked_for (fst kv)) camera_exif))
               (Ok "holiday"))).
Proof.
  apply (other_tags_do_not_matter strptime_exif camera_jpg camera_exif (Ok "holiday")).
  reflexivity.
Defined.

Lemma is_supported_ignores_case_witness : is_supported A_PNG = is_supported a_png.
Proof.
  apply (is_supported_ignores_case A_PNG a_png). reflexivity.
Defined.

Lemma unresolvable_candidate_aborts_witness :
  get_image_files strptime_exif folder_with_dangling_link old_state =
    (Raise "No such file or directory",
     mk_state (output_file old_state) (console old_state)
              (resolve_calls old_state ++ map name [a_png] ++ [name dangling_png])%list) /\
  process_images strptime_exif "images" folder_with_dangling_link old_state =
    (Raise "No such file or directory",
     mk_state (output_file old_state) (console old_state)
              (resolve_calls old_state ++ map name [a_png] ++ [name dangling_png])%list).
Proof.
  apply (unresolvable_candidate_aborts strptime_exif "images" folder_with_dangling_link
           [a_png] [z_tiff] dangling_png "No such file or directory" old_state);
    reflexivity.
Defined.

Lemma listing_order_is_irrelevant_witness :
  exists l,
    fst (get_image_files strptime_exif three_images old_state) = Ok l /\
    fst (get_image_files strptime_exif three_images_listed_otherwise old_state) = Ok l /\
    output_file (snd (process_images strptime_exif "images" three_images old_state)) =
      output_file (snd (process_images strptime_exif "images"
                          three_images_listed_otherwise old_state)) /\
    console (snd (process_images strptime_exif "images" three_images old_state)) =
      console (snd (process_images strptime_exif "images"
                      three_images_listed_otherwise old_state)).
Proof.
  apply (listing_order_is_irrelevant strptime_exif "images" three_images
           three_images_listed_otherwise old_state).
  - exact (Permutation_app_comm [a_png; broken_bmp] [z_tiff]).
  - reflexivity.
  - vm_compute. nodup_keys.
Defined.

Lemma get_image_files_fixed_point_witness :
  fst (get_image_files strptime_exif [camera_jpg; a_png; c_JPG; broken_bmp; z_tiff]
         old_state) =
    Ok [camera_jpg; a_png; c_JPG; broken_bmp; z_tiff].
Proof.
  apply (get_image_files_fixed_point strptime_exif images_dir
           [camera_jpg; a_png; c_JPG; broken_bmp; z_tiff] empty_state old_state).
  reflexivity.
Defined.

(** ** Runs on a platform *)

(** On a console and a file that take every string, the loop on a platform
    is the loop above. *)
Lemma process_images_io_plain (strptime : string -> option datetime)
      (folder_path : string) (iterdir : list dir_entry) (s : state) :
  process_images_io strptime plain_platform folder_path iterdir s =
  process_images strptime folder_path iterdir s.
Proof.
  unfold process_images_io, process_images, bind.
  destruct (get_image_files strptime iterdir s) as [[[|x l]|msg] s1]; reflexivity.
Qed.


(** C10 fails on the code: under DateTime [odd.jpg] holds a value that
    [strptime] does not parse, not being a string, and under
    DateTimeOriginal, further on, a string that parses; the result is the
    modification time. *)
Lemma non_string_value_is_not_passed_over :
  image odd_jpg =
    Opened (GetexifDict [(271, ExifStr "Canon"); (DateTime, ExifOther);
                         (DateTimeOriginal, ExifStr "2021:05:01 10:00:00")]) (Ok "odd") /\
  looked_for DateTime = true /\
  looked_for DateTimeOriginal = true /\
  strptime_exif "2021:05:01 10:00:00" = Some t_capture /\
  get_image_creation_time strptime_exif odd_jpg = Ok (at_noon 5, "mtime") /\
  get_image_creation_time strptime_exif odd_jpg <> Ok (t_capture, "EXIF").
Proof.
  split; [reflexivity|]. split; [reflexivity|]. split; [reflexivity|].
  split; [reflexivity|]. split; [reflexivity|]. vm_compute. discriminate.
Qed.

(** C6 fails on the code, on two folders of three candidates whose second
    one is bad.  A link whose target is gone: the exception of [stat] leaves
    the key of the sort, outside the [try] of the loop, and no entry is
    processed.  A file that is no image, with a name the console cannot
    encode: its turn is caught, and the [print] of the handler raises; the
    third entry is not processed. *)
Lemma bad_candidate_ends_batch :
  process_images_io strptime_exif utf8_platform "images" [a_png; dangling_png; z_tiff]
    old_state =
    (Raise "No such file or directory",
     mk_state (Some "old text") [] ["a.png"; "dangling.png"]) /\
  process_images_io strptime_exif utf8_platform "images" folder_with_raw_broken old_state =
    (Raise "'utf-8' codec can't encode character: surrogates not allowed",
     mk_state
       (Some ("old text"
              ++ newline ++ "--- Text from a.png (mtime time: 2024-03-02 12:00:00) ---"
              ++ newline ++ "page a" ++ newline))
       ["Processed: a.png (using mtime timestamp)"]
       ["a.png"; name raw_bmp; "z.tiff"; "a.png"; name raw_bmp]).
Proof. split; reflexivity. Qed.


(** The run on [folder_with_raw_name]: the turn on the second entry opens
    the file and raises at the first write, the handler raises at its
    [print], and the third entry, resolved once for the sort, is not
    processed. *)
Example raw_name_ends_run :
  process_images_io strptime_exif utf8_platform "images" folder_with_raw_name old_state =
    (Raise "'utf-8' codec can't encode character: surrogates not allowed",
     mk_state
       (Some ("old text"
              ++ newline ++ "--- Text from a.png (mtime time: 2024-03-02 12:00:00) ---"
              ++ newline ++ "page a" ++ newline))
       ["Processed: a.png (using mtime timestamp)"]
       ["a.png"; name raw_png; "z.tiff"; "a.png"; name raw_png]).
Proof. reflexivity. Qed.

(** A turn that gets past recognition opens the file before it writes: on a
    missing file, the one turn failing at its first write, the file is left
    in existence, empty. *)
Example failed_write_leaves_empty_file :
  process_images_io strptime_exif utf8_platform "images" [raw_png] empty_state =
    (Raise "'utf-8' codec can't encode character: surrogates not allowed",
     mk_state (Some EmptyString) [] [name raw_png; name raw_png]).
Proof. reflexivity. Qed.

Lemma output_file_untouched_without_recognition_witness :
  output_file (snd (process_images_io strptime_exif utf8_platform "images"
                      [broken_bmp; raw_bmp; b_txt] empty_state)) = output_file empty_state.
Proof.
  apply (output_file_untouched_without_recognition strptime_exif utf8_platform "images"
           [broken_bmp; raw_bmp; b_txt] empty_state).
  simpl. intros e [<-|[<-|[]]]; eexists; reflexivity.
Defined.
